(** * vix.py: regime classification and alerting engine

    A shallow embedding of [src/vix.py].

    Numbers.  Prices and changes are Python numbers; they are modelled as
    exact rationals [Q], so the rounding of binary floating point is not
    part of the model.  Scores and strengths are Python [int]s, modelled
    as [Z].  [int(x)] truncates toward zero ([Qtrunc]).

    State.  The module-level dictionaries [previous] and [history], the
    loop variable [last_weekly_alert], the history file and the messages
    handed to Telegram are the fields of one [State] record, threaded
    through a state-and-exception monad [M]: a raised Python exception
    keeps every mutation done before it.

    Collaborators.  [get_price] is a function parameter, the clock is an
    input of each tick, and [send_telegram] appends a structured message
    to the output trace ([sent]); the text layout of the messages is not
    modelled, their payload is.  [option_guidance_live] only lays out
    text from the regime and the vix price and is left out. *)

From Stdlib Require Import ZArith QArith Qround Qabs String Lqa.
From stdpp Require Import gmap strings list.

Local Open Scope Z_scope.

(** ** Python numbers *)

Module Py.

(** [a < b] on numbers, as a boolean. *)
Definition Qltb (a b : Q) : bool := (Qnum a * QDen b <? Qnum b * QDen a)%Z.

(** [int(x)]: truncation toward zero. *)
Definition Qtrunc (x : Q) : Z := Z.quot (Qnum x) (QDen x).

(** The exceptions the modelled code can raise. *)
Inductive exn := ZeroDivisionError | TypeError | KeyError | IndexError.

Inductive result (A : Type) : Type :=
| Ok (a : A)
| Raise (e : exn).
Arguments Ok {A} a.
Arguments Raise {A} e.

#[global] Instance result_ret : MRet result := fun _ a => Ok a.
#[global] Instance result_bind : MBind result := fun _ _ f r =>
  match r with Ok a => f a | Raise e => Raise e end.

(** [a / b] raises [ZeroDivisionError] on a zero divisor. *)
Definition div (a b : Q) : result Q :=
  if Qeq_bool b 0 then Raise ZeroDivisionError else Ok (a / b)%Q.

(** Truthiness of a dictionary slot that holds [None] or a number:
    [None] and zero are falsy. *)
Definition truthy (o : option Q) : bool :=
  match o with
  | None => false
  | Some q => negb (Qeq_bool q 0)
  end.

(** A number slot used in arithmetic: [None] raises [TypeError]. *)
Definition num (o : option Q) : result Q :=
  match o with
  | None => Raise TypeError
  | Some q => Ok q
  end.

End Py.
Import Py.

#[global] Instance Qlt_decision (a b : Q) : Decision (a < b)%Q.
Proof.
  destruct (Qltb a b) eqn:E; unfold Qltb in E.
  - left. apply Z.ltb_lt in E. exact E.
  - right. apply Z.ltb_nlt in E. exact E.
Defined.

(** ** Data model *)

Inductive Regime :=
| PANIC | TRANSITION | EARLY_PHASE_1 | CONFIRMED_PHASE_1 | LATE_PHASE_1.

#[global] Instance Regime_eq_dec : EqDecision Regime.
Proof. solve_decision. Defined.

(** The dictionary built by [fetch_market_data]. *)
Record MarketSnapshot := {
  vix : Q; vvix : Q; spx : Q; vx1 : Q; vx2 : Q; vx3 : Q
}.

(** The dictionary built by [compute_changes]. *)
Record Changes := {
  vix_change : Q;
  vvix_change : Q;
  spx_change : Q;
  spread : Q;
  spread_trending_down : bool
}.

(** The module-level dictionary [previous]; every slot starts as [None]. *)
Record Previous := {
  p_vix : option Q;
  p_vvix : option Q;
  p_spx : option Q;
  p_spread : option Q;
  p_regime : option Regime
}.

Definition previous_init : Previous :=
  {| p_vix := None; p_vvix := None; p_spx := None;
     p_spread := None; p_regime := None |}.

(** ** Data fetch *)

Definition fetch_market_data (get_price : string -> Q) : MarketSnapshot :=
  let vix := get_price "^VIX" in
  let vvix := get_price "^VVIX" in
  let spx := get_price "^GSPC" in
  let vx1 := get_price "VIXY" in
  let vx2 := get_price "UVXY" in
  {| vix := vix; vvix := vvix; spx := spx; vx1 := vx1; vx2 := vx2;
     vx3 := (vx2 * (101 # 100))%Q |}.

(** ** Calculations *)

(** [(cur - prev) / prev * 100] with [prev] read from a slot of [previous]. *)
Definition pct_change (cur : Q) (prev : option Q) : result Q :=
  p ← num prev;
  let d := (cur - p)%Q in
  q ← div d p;
  mret (q * 100)%Q.

Definition compute_changes (previous : Previous) (data : MarketSnapshot)
  : result Changes :=
  pcts ← (if truthy (p_vix previous) then
            vc ← pct_change (vix data) (p_vix previous);
            vvc ← pct_change (vvix data) (p_vvix previous);
            sc ← pct_change (spx data) (p_spx previous);
            mret (vc, vvc, sc)
          else mret (0%Q, 0%Q, 0%Q));
  let '(vc, vvc, sc) := pcts in
  let spread := (vx1 data - vx2 data)%Q in
  mret {| vix_change := vc; vvix_change := vvc; spx_change := sc;
          spread := spread;
          spread_trending_down :=
            match p_spread previous with
            | None => false
            | Some ps => Qltb spread ps
            end |}.

Definition fake_spike (data : MarketSnapshot) (changes : Changes) : bool :=
  Qltb 0 (vix_change changes) && Qltb 0 (vvix_change changes)
  && (Qltb (vx2 data) (vx1 data) && Qltb (vx3 data) (vx2 data)).

Definition probability_score (data : MarketSnapshot) (changes : Changes) : Z :=
  let score := 0 in
  let score := if Qltb 3 (Qabs (vix_change changes)) then score + 20 else score in
  let score := if Qltb (vx1 data) (vx2 data) then score + 20 else score in
  let score := if Qltb (spread changes) (- (5 # 10)) then score + 15 else score in
  let score := if spread_trending_down changes then score + 10 else score in
  let score := if Qltb (vvix_change changes) 0 then score + 15 else score in
  let score := if Qltb 0 (spx_change changes) && Qltb (vix_change changes) 0
               then score + 10 else score in
  let score := if Qltb (vx1 data) (vx2 data) && Qltb (vx2 data) (vx3 data)
               then score + 10 else score in
  score.

Definition classify (score : Z) : Regime :=
  if score <? 30 then PANIC
  else if score <? 50 then TRANSITION
  else if score <? 70 then EARLY_PHASE_1
  else if score <? 85 then CONFIRMED_PHASE_1
  else LATE_PHASE_1.

Definition important : list Regime :=
  [TRANSITION; EARLY_PHASE_1; CONFIRMED_PHASE_1].

(** [old] is the slot [previous["regime"]], [None] before the first
    completed tick. *)
Definition should_alert (new : Regime) (old : option Regime) : bool :=
  negb (bool_decide (Some new = old)) && bool_decide (new ∈ important).

Definition EARLY_WARNING_THRESHOLD : Q := - (25 # 100).

Definition should_early_warning_alert (changes : Changes) : bool :=
  Qle_bool (spread changes) EARLY_WARNING_THRESHOLD
  && Qltb (- (5 # 10)) (spread changes).

(** ** Strength *)

Definition signal_strength (value : Q) (ideal_positive : bool) : Z :=
  if ideal_positive
  then Z.max (Z.min (Qtrunc (value * 5 + 50)) 100) 0
  else Z.max (Z.min (Qtrunc ((0 - value) * 5 + 50)) 100) 0.

Inductive symbol := SymOk | SymWarn | SymBad.

Definition heatmap_symbol (score : Z) : symbol :=
  if 70 <? score then SymOk
  else if 40 <? score then SymWarn
  else SymBad.

(** ** Bounded buffers: [collections.deque(maxlen=n)] *)

Record deque (A : Type) := Deque {
  dq_items : list A;
  dq_maxlen : nat
}.
Arguments Deque {A} dq_items dq_maxlen.
Arguments dq_items {A} d.
Arguments dq_maxlen {A} d.

(** [d.append(x)]: the element is put at the right end, then the left
    end is popped if the length went over [maxlen]. *)
Definition dq_append {A} (d : deque A) (x : A) : deque A :=
  let l := dq_items d ++ [x] in
  Deque (if (dq_maxlen d <? length l)%nat then drop 1 l else l) (dq_maxlen d).

(** [deque(xs, maxlen=n)]: an empty deque extended with [xs], one
    [append] after the other. *)
Definition dq_new {A} (xs : list A) (n : nat) : deque A :=
  foldl dq_append (Deque [] n) xs.

(** What a buffer holds: numbers (strengths) or strings (dates and
    regime names); the same two kinds are what the JSON file gives back. *)
Inductive hval :=
| HNum (q : Q)
| HStr (s : string).

Definition HInt (z : Z) : hval := HNum (inject_Z z).

Definition regime_name (r : Regime) : string :=
  match r with
  | PANIC => "PANIC"
  | TRANSITION => "TRANSITION"
  | EARLY_PHASE_1 => "EARLY_PHASE_1"
  | CONFIRMED_PHASE_1 => "CONFIRMED_PHASE_1"
  | LATE_PHASE_1 => "LATE_PHASE_1"
  end.

Definition SMOOTHING_DAYS : nat := 3.
Definition TREND_LENGTH : nat := 5.
Definition WEEKLY_LENGTH : nat := 7.

(** The capacity each key of [history] is declared with. *)
Definition declared_capacity : gmap string nat :=
  list_to_map [
    ("vix_strength", SMOOTHING_DAYS); ("vvix_strength", SMOOTHING_DAYS);
    ("spread_strength", SMOOTHING_DAYS); ("spx_strength", SMOOTHING_DAYS);
    ("vix_trend", TREND_LENGTH); ("vvix_trend", TREND_LENGTH);
    ("spread_trend", TREND_LENGTH); ("spx_trend", TREND_LENGTH);
    ("vix_week", WEEKLY_LENGTH); ("vvix_week", WEEKLY_LENGTH);
    ("spread_week", WEEKLY_LENGTH); ("spx_week", WEEKLY_LENGTH);
    ("regime_week", WEEKLY_LENGTH); ("date_week", WEEKLY_LENGTH)
  ].

(** The module-level dictionary [history]: one empty deque per key. *)
Definition history_init : gmap string (deque hval) :=
  Deque [] <$> declared_capacity.

(** ** Messages *)

(** One value per tracked metric. *)
Record Quad (A : Type) := MkQuad {
  q_vix : A; q_vvix : A; q_spread : A; q_spx : A
}.
Arguments MkQuad {A} q_vix q_vvix q_spread q_spx.
Arguments q_vix {A} q.
Arguments q_vvix {A} q.
Arguments q_spread {A} q.
Arguments q_spx {A} q.

(** A bar of the chart: how many filled and how many empty cells. *)
Definition bar : Type := nat * nat.

Inductive arrow := ArrowUp | ArrowDown | ArrowFlat.

Record Heatmap := {
  hm_vix : Q;
  hm_vvix : Q;
  hm_spread : Q;
  hm_spx_change : Q;
  hm_strength : Quad Z;
  hm_smoothed : Quad Z;
  hm_symbols : Quad (symbol * symbol);
  hm_regime : Regime;
  hm_score : Z;
  hm_charts : Quad (list bar)
}.

Record DashboardRow := {
  row_date : hval;
  row_bars : Quad bar;
  row_regime : hval
}.

Record Dashboard := {
  db_rows : list DashboardRow;
  db_average : Quad Z;
  db_arrows : Quad arrow;
  db_regime : option Regime
}.

Inductive message :=
| MsgStarted
| MsgFakeSpike
| MsgEarlyWarning (spread : Q)
| MsgHeatmap (h : Heatmap)
| MsgDashboard (d : Dashboard)
| MsgError (e : exn).

(** ** State memory *)

Record State := {
  previous : Previous;
  history : gmap string (deque hval);
  last_weekly_alert : Z;
  history_file : option (list (string * list hval));
  sent : list message
}.

Definition set_previous (p : Previous) (s : State) : State :=
  {| previous := p; history := history s;
     last_weekly_alert := last_weekly_alert s;
     history_file := history_file s; sent := sent s |}.

Definition set_history (h : gmap string (deque hval)) (s : State) : State :=
  {| previous := previous s; history := h;
     last_weekly_alert := last_weekly_alert s;
     history_file := history_file s; sent := sent s |}.

Definition set_last_weekly_alert (t : Z) (s : State) : State :=
  {| previous := previous s; history := history s;
     last_weekly_alert := t;
     history_file := history_file s; sent := sent s |}.

Definition set_history_file (f : option (list (string * list hval)))
    (s : State) : State :=
  {| previous := previous s; history := history s;
     last_weekly_alert := last_weekly_alert s;
     history_file := f; sent := sent s |}.

Definition set_sent (l : list message) (s : State) : State :=
  {| previous := previous s; history := history s;
     last_weekly_alert := last_weekly_alert s;
     history_file := history_file s; sent := l |}.

(** The state the module starts in; [file] is what is on disk. *)
Definition state_init (file : option (list (string * list hval))) : State :=
  {| previous := previous_init; history := history_init;
     last_weekly_alert := 0; history_file := file; sent := [] |}.

(** ** The state-and-exception monad *)

Definition M (A : Type) : Type := State -> result A * State.

#[global] Instance M_ret : MRet M := fun _ a s => (Ok a, s).
#[global] Instance M_bind : MBind M := fun _ _ f m s =>
  match m s with
  | (Ok a, s') => f a s'
  | (Raise e, s') => (Raise e, s')
  end.

Definition raise {A} (e : exn) : M A := fun s => (Raise e, s).
Definition lift {A} (r : result A) : M A := fun s => (r, s).
Definition get : M State := fun s => (Ok s, s).
Definition modify (f : State -> State) : M unit := fun s => (Ok tt, f s).

(** [try: m except Exception as e: h e] *)
Definition try_except {A} (m : M A) (h : exn -> M A) : M A := fun s =>
  match m s with
  | (Ok a, s') => (Ok a, s')
  | (Raise e, s') => h e s'
  end.

(** [for x in l: f x] *)
Fixpoint for_each {A} (l : list A) (f : A -> M unit) : M unit :=
  match l with
  | [] => mret tt
  | x :: l' => f x;; for_each l' f
  end.

(** A list comprehension whose element can raise. *)
Fixpoint collect {A B} (l : list A) (f : A -> M B) : M (list B) :=
  match l with
  | [] => mret []
  | x :: l' => y ← f x; ys ← collect l' f; mret (y :: ys)
  end.

Definition send_telegram (msg : message) : M unit :=
  modify (fun s => set_sent (sent s ++ [msg]) s).

(** [history[k]] *)
Definition hist_get (k : string) : M (deque hval) :=
  s ← get;
  match history s !! k with
  | Some d => mret d
  | None => raise KeyError
  end.

(** [history[k].append(x)] *)
Definition hist_append (k : string) (x : hval) : M unit :=
  d ← hist_get k;
  modify (fun s => set_history (<[k := dq_append d x]> (history s)) s).

(** [history[k][i]] *)
Definition hist_index (k : string) (i : nat) : M hval :=
  d ← hist_get k;
  match dq_items d !! i with
  | Some x => mret x
  | None => raise IndexError
  end.

(** ** JSON persistence *)

Definition load_history : M unit :=
  s ← get;
  match history_file s with
  | None => mret tt
  | Some data =>
      for_each data (fun '(k, xs) =>
        d ← hist_get k;
        modify (fun s => set_history (<[k := dq_new xs (dq_maxlen d)]> (history s)) s))
  end.

Definition save_history : M unit :=
  modify (fun s =>
    set_history_file (Some (map_to_list (dq_items <$> history s))) s).

(** ** Strength and trends over the buffers *)

(** [sum(xs)]: starts from 0 and adds; a string element raises. *)
Fixpoint py_sum_from (acc : Q) (xs : list hval) : result Q :=
  match xs with
  | [] => Ok acc
  | HNum q :: xs' => py_sum_from (acc + q)%Q xs'
  | HStr _ :: _ => Raise TypeError
  end.

Definition py_sum (xs : list hval) : result Q := py_sum_from 0%Q xs.

(** [sum(history[k]) / len(history[k])] *)
Definition average (k : string) : M Q :=
  d ← hist_get k;
  total ← lift (py_sum (dq_items d));
  d' ← hist_get k;
  lift (div total (inject_Z (Z.of_nat (length (dq_items d'))))).

Definition smoothed_strength (name : string) (current_score : Z) : M Z :=
  hist_append name (HInt current_score);;
  mean ← average name;
  mret (Qtrunc mean).

Definition bar_visual (score : hval) : result bar :=
  match score with
  | HNum q =>
      let blocks := Qtrunc (q / 10) in
      Ok (Z.to_nat blocks, Z.to_nat (10 - blocks))
  | HStr _ => Raise TypeError
  end.

Fixpoint trend_visual (trend_deque : list hval) : result (list bar) :=
  match trend_deque with
  | [] => Ok []
  | val :: rest =>
      b ← bar_visual val;
      chart ← trend_visual rest;
      mret (b :: chart)
  end.

(** ** Weekly dashboard *)

(** [a < b] and [a > b] on buffer elements; a number and a string do
    not compare. *)
Definition py_lt (a b : hval) : result bool :=
  match a, b with
  | HNum x, HNum y => Ok (Qltb x y)
  | HStr x, HStr y => Ok (String.ltb x y)
  | _, _ => Raise TypeError
  end.

Definition py_gt (a b : hval) : result bool := py_lt b a.

(** [seq[-1]] and [seq[0]] *)
Definition dq_last (seq : deque hval) : result hval :=
  match last (dq_items seq) with
  | Some x => Ok x
  | None => Raise IndexError
  end.

Definition dq_first (seq : deque hval) : result hval :=
  match dq_items seq with
  | x :: _ => Ok x
  | [] => Raise IndexError
  end.

Definition trend_arrow (seq : deque hval) : result arrow :=
  l ← dq_last seq;
  f ← dq_first seq;
  up ← py_gt l f;
  if (up : bool) then Ok ArrowUp
  else
    l ← dq_last seq;
    f ← dq_first seq;
    down ← py_lt l f;
    if (down : bool) then Ok ArrowDown else Ok ArrowFlat.

Definition dashboard_row (i : nat) : M DashboardRow :=
  date ← hist_index "date_week" i;
  x ← hist_index "vix_week" i;
  b_vix ← lift (bar_visual x);
  x ← hist_index "vvix_week" i;
  b_vvix ← lift (bar_visual x);
  x ← hist_index "spread_week" i;
  b_spread ← lift (bar_visual x);
  x ← hist_index "spx_week" i;
  b_spx ← lift (bar_visual x);
  r ← hist_index "regime_week" i;
  mret {| row_date := date;
          row_bars := MkQuad b_vix b_vvix b_spread b_spx;
          row_regime := r |}.

Definition week_arrow (k : string) : M arrow :=
  d ← hist_get k;
  lift (trend_arrow d).

Definition send_weekly_dashboard : M unit :=
  d ← hist_get "vix_week";
  if (length (dq_items d) <? 2)%nat then mret tt
  else
    avg_vix ← average "vix_week";
    avg_vvix ← average "vvix_week";
    avg_spread ← average "spread_week";
    avg_spx ← average "spx_week";
    d ← hist_get "vix_week";
    rows ← collect (seq 0 (length (dq_items d))) dashboard_row;
    a_vix ← week_arrow "vix_week";
    a_vvix ← week_arrow "vvix_week";
    a_spread ← week_arrow "spread_week";
    a_spx ← week_arrow "spx_week";
    s ← get;
    send_telegram (MsgDashboard
      {| db_rows := rows;
         db_average := MkQuad (Qtrunc avg_vix) (Qtrunc avg_vvix)
                              (Qtrunc avg_spread) (Qtrunc avg_spx);
         db_arrows := MkQuad a_vix a_vvix a_spread a_spx;
         db_regime := p_regime (previous s) |}).

(** ** Main loop *)

(** What one iteration reads from outside: the fetched snapshot, the
    wall clock (seconds) and the formatted date. *)
Record Tick := {
  t_data : MarketSnapshot;
  t_now : Z;
  t_today : string
}.

Definition chart_of (k : string) : M (list bar) :=
  d ← hist_get k;
  lift (trend_visual (dq_items d)).

(** The block [# compute strengths] of [run]: [signal_strength] is called
    with its default [ideal_positive=True] each time. *)
Definition compute_strengths (changes : Changes) : Quad Z :=
  let vix_str := signal_strength (- vix_change changes) true in
  let vvix_str := signal_strength (- vvix_change changes) true in
  let spread_str := signal_strength (- spread changes) true in
  let spx_str := signal_strength (spx_change changes) true in
  MkQuad vix_str vvix_str spread_str spx_str.

(** The body of [if should_alert(regime, previous["regime"]):]. *)
Definition phase_alert (w : Tick) (changes : Changes) (score : Z)
    (regime : Regime) : M unit :=
  let '(MkQuad vix_str vvix_str spread_str spx_str) :=
    compute_strengths changes in
  vix_smooth ← smoothed_strength "vix_strength" vix_str;
  vvix_smooth ← smoothed_strength "vvix_strength" vvix_str;
  spread_smooth ← smoothed_strength "spread_strength" spread_str;
  spx_smooth ← smoothed_strength "spx_strength" spx_str;
  hist_append "vix_trend" (HInt vix_str);;
  hist_append "vvix_trend" (HInt vvix_str);;
  hist_append "spread_trend" (HInt spread_str);;
  hist_append "spx_trend" (HInt spx_str);;
  hist_append "vix_week" (HInt vix_str);;
  hist_append "vvix_week" (HInt vvix_str);;
  hist_append "spread_week" (HInt spread_str);;
  hist_append "spx_week" (HInt spx_str);;
  hist_append "regime_week" (HStr (regime_name regime));;
  hist_append "date_week" (HStr (t_today w));;
  save_history;;
  c_vix ← chart_of "vix_trend";
  c_vvix ← chart_of "vvix_trend";
  c_spread ← chart_of "spread_trend";
  c_spx ← chart_of "spx_trend";
  send_telegram (MsgHeatmap
    {| hm_vix := vix (t_data w);
       hm_vvix := vvix (t_data w);
       hm_spread := spread changes;
       hm_spx_change := spx_change changes;
       hm_strength := MkQuad vix_str vvix_str spread_str spx_str;
       hm_smoothed := MkQuad vix_smooth vvix_smooth spread_smooth spx_smooth;
       hm_symbols :=
         MkQuad (heatmap_symbol vix_str, heatmap_symbol vix_smooth)
                (heatmap_symbol vvix_str, heatmap_symbol vvix_smooth)
                (heatmap_symbol spread_str, heatmap_symbol spread_smooth)
                (heatmap_symbol spx_str, heatmap_symbol spx_smooth);
       hm_regime := regime;
       hm_score := score;
       hm_charts := MkQuad c_vix c_vvix c_spread c_spx |}).

(** The part of an iteration after the spike filter. *)
Definition scored_tick (w : Tick) (changes : Changes) : M unit :=
  let data := t_data w in
  let score := probability_score data changes in
  let regime := classify score in
  (if should_early_warning_alert changes
   then send_telegram (MsgEarlyWarning (spread changes))
   else mret tt);;
  s ← get;
  (if should_alert regime (p_regime (previous s))
   then phase_alert w changes score regime
   else mret tt);;
  s ← get;
  (if 24 * 3600 <? t_now w - last_weekly_alert s
   then send_weekly_dashboard;; modify (set_last_weekly_alert (t_now w))
   else mret tt);;
  modify (set_previous
    {| p_regime := Some regime;
       p_vix := Some (vix data);
       p_vvix := Some (vvix data);
       p_spx := Some (spx data);
       p_spread := Some (spread changes) |}).

(** The [try] block of one iteration. *)
Definition tick_body (w : Tick) : M unit :=
  let data := t_data w in
  s ← get;
  changes ← lift (compute_changes (previous s) data);
  if fake_spike data changes
  then send_telegram MsgFakeSpike
  else scored_tick w changes.

(** One iteration of [while True]. *)
Definition tick (w : Tick) : M unit :=
  try_except (tick_body w) (fun e => send_telegram (MsgError e)).

(** [run()], cut after the iterations fed by [ticks]; [now0] is the
    clock at start. *)
Definition run (now0 : Z) (ticks : list Tick) : M unit :=
  load_history;;
  send_telegram MsgStarted;;
  modify (set_last_weekly_alert (now0 - 24 * 3600));;
  for_each ticks tick.

(** ** The specification's tables, in its own words *)

(** A weight counts in full when its condition holds, and not at all
    otherwise. *)
Definition weight_if (w : Z) (P : Prop) `{Decision P} : Z :=
  if decide P then w else 0.

(** The sum of the triggered weights of the scoring table. *)
Definition table_score (data : MarketSnapshot) (changes : Changes) : Z :=
  weight_if 20 (3 < Qabs (vix_change changes))%Q
  + weight_if 20 (vx1 data < vx2 data)%Q
  + weight_if 15 (spread changes < - (1 # 2))%Q
  + weight_if 10 (spread_trending_down changes = true)
  + weight_if 15 (vvix_change changes < 0)%Q
  + weight_if 10 ((0 < spx_change changes)%Q /\ (vix_change changes < 0)%Q)
  + weight_if 10 ((vx1 data < vx2 data)%Q /\ (vx2 data < vx3 data)%Q).

(** Rounding to the nearest integer, ties to the even one. *)
Definition round_nearest (x : Q) : Z :=
  let f := Qfloor x in
  let r := (x - inject_Z f)%Q in
  if Qltb r (1 # 2) then f
  else if Qltb (1 # 2) r then f + 1
  else if Z.even f then f else f + 1.

Definition clamp (lo hi x : Z) : Z := Z.max (Z.min x hi) lo.

(** The strength formula with a rounding step. *)
Definition rounded_strength (v : Q) : Z :=
  clamp 0 100 (round_nearest (v * 5 + 50)).

(** The strength formula with the fraction dropped. *)
Definition floored_strength (v : Q) : Z :=
  clamp 0 100 (Qfloor (v * 5 + 50)).

(** ** Invariants and observations *)

(** A buffer is within its capacity. *)
Definition bounded {A} (d : deque A) : Prop :=
  (length (dq_items d) <= dq_maxlen d)%nat.

(** Every key of [history] holds a buffer of the declared capacity, no
    key is missing or extra, and every buffer is within its capacity. *)
Definition buffers_ok (h : gmap string (deque hval)) : Prop :=
  dq_maxlen <$> h = declared_capacity
  /\ map_Forall (fun _ d => bounded d) h.

(** The last [n] elements of a list, in order. *)
Definition lastn {A} (n : nat) (l : list A) : list A :=
  drop (length l - n) l.

(** The keys of the smoothing buffers, and the keys of the trend and
    weekly buffers. *)
Definition smoothing_keys : list string :=
  ["vix_strength"; "vvix_strength"; "spread_strength"; "spx_strength"].

Definition record_keys : list string :=
  ["vix_trend"; "vvix_trend"; "spread_trend"; "spx_trend";
   "vix_week"; "vvix_week"; "spread_week"; "spx_week";
   "regime_week"; "date_week"].

(** The smoothing buffers after the smoothing block of [phase_alert]. *)
Definition smoothed (changes : Changes) (h : gmap string (deque hval))
    (ds : Quad (deque hval)) : gmap string (deque hval) :=
  <["spx_strength" :=
      dq_append (q_spx ds) (HInt (q_spx (compute_strengths changes)))]>
  (<["spread_strength" :=
       dq_append (q_spread ds) (HInt (q_spread (compute_strengths changes)))]>
   (<["vvix_strength" :=
        dq_append (q_vvix ds) (HInt (q_vvix (compute_strengths changes)))]>
    (<["vix_strength" :=
         dq_append (q_vix ds) (HInt (q_vix (compute_strengths changes)))]>
     h))).

(** A buffer that holds numbers only. *)
Definition numeric (d : deque hval) : Prop :=
  Forall (fun x => exists q, x = HNum q) (dq_items d).

(** The smoothing buffers of a state hold numbers only. *)
Definition smoothing_numeric (s : State) : Prop :=
  forall k d, k ∈ smoothing_keys -> history s !! k = Some d -> numeric d.

(** [m] keeps the state property [I], whether it returns or raises. *)
Definition preserves {A} (I : State -> Prop) (m : M A) : Prop :=
  forall s, I s -> I (m s).2.

(** ** Further observations *)

(** What [load_history] leaves under a key that held [d], given the
    entry of the file for that key, if any. *)
Definition reloaded (entry : option (list hval)) (d : deque hval) : deque hval :=
  match entry with
  | Some xs => dq_new xs (dq_maxlen d)
  | None => d
  end.

(** From a state satisfying [P], [m] ends in a state satisfying [Q a]
    when it returns [a], and [E e] when it raises [e]. *)
Definition triple {A} (P : State -> Prop) (m : M A)
    (Q : A -> State -> Prop) (E : exn -> State -> Prop) : Prop :=
  forall s, P s ->
    match m s with
    | (Ok a, s') => Q a s'
    | (Raise e, s') => E e s'
    end.

(** An entry of a strength buffer: an integer between 0 and 100. *)
Definition strength_entry (x : hval) : Prop :=
  exists z, x = HInt z /\ 0 <= z <= 100.

(** What a scored iteration stores in [previous] when it completes. *)
Definition new_previous (w : Tick) (changes : Changes) : Previous :=
  {| p_regime := Some (classify (probability_score (t_data w) changes));
     p_vix := Some (vix (t_data w));
     p_vvix := Some (vvix (t_data w));
     p_spx := Some (spx (t_data w));
     p_spread := Some (spread changes) |}.

(** The keys whose buffers hold strengths, and the keys of the weekly
    record. *)
Definition strength_keys : list string :=
  ["vix_strength"; "vvix_strength"; "spread_strength"; "spx_strength";
   "vix_trend"; "vvix_trend"; "spread_trend"; "spx_trend";
   "vix_week"; "vvix_week"; "spread_week"; "spx_week"].

Definition week_keys : list string :=
  ["vix_week"; "vvix_week"; "spread_week"; "spx_week";
   "regime_week"; "date_week"].

(** A state as a run without history file keeps it: buffers of the
    declared capacities, strengths between 0 and 100 in the strength
    buffers, the six weekly buffers filled in lockstep, [previous]
    either empty or complete, and no error reported but a division by
    zero. *)
Definition healthy (s : State) : Prop :=
  buffers_ok (history s)
  /\ (forall k d, k ∈ strength_keys -> history s !! k = Some d ->
        Forall strength_entry (dq_items d))
  /\ (exists n, forall k d, k ∈ week_keys -> history s !! k = Some d ->
        length (dq_items d) = n)
  /\ (p_vix (previous s) <> None ->
        p_vvix (previous s) <> None /\ p_spx (previous s) <> None)
  /\ (forall e, MsgError e ∈ sent s -> e = ZeroDivisionError).

(** [m] returns from [s], in a state satisfying [Q]. *)
Definition returns {A} (m : M A) (s : State) (Q : State -> Prop) : Prop :=
  exists a s', m s = (Ok a, s') /\ Q s'.

(** * Properties *)

(** ** Comparisons on numbers *)

Lemma Qltb_lt (a b : Q) : Qltb a b = true <-> (a < b)%Q.
Proof. unfold Qltb, Qlt. apply Z.ltb_lt. Qed.

Lemma Qltb_nlt (a b : Q) : Qltb a b = false <-> ~ (a < b)%Q.
Proof. unfold Qltb, Qlt. rewrite Z.ltb_nlt. tauto. Qed.

Lemma Qltb_irrefl (a : Q) : Qltb a a = false.
Proof. apply Qltb_nlt, Qlt_irrefl. Qed.

Lemma Qltb_proper (a a' b b' : Q) :
  (a == a')%Q -> (b == b')%Q -> Qltb a b = Qltb a' b'.
Proof.
  intros Ha Hb. destruct (Qltb a' b') eqn:E.
  - apply Qltb_lt. rewrite Ha, Hb. now apply Qltb_lt.
  - apply Qltb_nlt. rewrite Ha, Hb. now apply Qltb_nlt.
Qed.

Lemma weight_if_bool (w : Z) (P : Prop) {dec : Decision P} (b : bool) :
  (b = true <-> P) -> weight_if w P = if b then w else 0.
Proof.
  intros Hb. unfold weight_if. destruct (decide P) as [HP | HP], b; try reflexivity.
  - apply Hb in HP. discriminate.
  - exfalso. apply HP, Hb. reflexivity.
Qed.

Lemma andb_conj (a b : bool) (P R : Prop) :
  (a = true <-> P) -> (b = true <-> R) -> (a && b = true <-> P /\ R).
Proof. intros <- <-. apply andb_true_iff. Qed.

(** ** Scoring *)

(** C1. [probability_score] is the sum of the weights of the table's
    conditions that hold, each condition judged on its own and counted
    in full or not at all, and the score lies in [0,100]. *)
Theorem probability_score_table (data : MarketSnapshot) (changes : Changes) :
  probability_score data changes = table_score data changes
  /\ 0 <= probability_score data changes <= 100.
Proof.
  assert (Hhalf : Qltb (spread changes) (- (5 # 10))
                  = Qltb (spread changes) (- (1 # 2))).
  { apply Qltb_proper; reflexivity. }
  unfold table_score.
  rewrite (weight_if_bool 20 _ _ (Qltb_lt _ _)).
  rewrite (weight_if_bool 20 _ _ (Qltb_lt _ _)).
  rewrite (weight_if_bool 15 _ _ (Qltb_lt _ _)).
  rewrite (weight_if_bool 10 _ (spread_trending_down changes) (iff_refl _)).
  rewrite (weight_if_bool 15 _ _ (Qltb_lt _ _)).
  rewrite (weight_if_bool 10 _ _ (andb_conj _ _ _ _ (Qltb_lt _ _) (Qltb_lt _ _))).
  rewrite (weight_if_bool 10 _ _ (andb_conj _ _ _ _ (Qltb_lt _ _) (Qltb_lt _ _))).
  unfold probability_score. rewrite Hhalf.
  destruct (Qltb 3 (Qabs (vix_change changes))),
           (Qltb (vx1 data) (vx2 data)),
           (Qltb (spread changes) (- (1 # 2))),
           (spread_trending_down changes),
           (Qltb (vvix_change changes) 0),
           (Qltb 0 (spx_change changes)),
           (Qltb (vix_change changes) 0),
           (Qltb (vx2 data) (vx3 data)); cbn; lia.
Qed.

(** The maximum of the table is reached. *)
Example probability_score_100 :
  probability_score
    {| vix := 19; vvix := 95; spx := 5050; vx1 := 30; vx2 := 31; vx3 := 32 |}
    {| vix_change := -5; vvix_change := -5; spx_change := 1;
       spread := -1; spread_trending_down := true |} = 100.
Proof. reflexivity. Qed.

(** ** Classification *)

(** C2. [classify] is the step function with boundaries 30, 50, 70 and
    85: every band is closed below and open above, and the five bands
    cover the integers without overlap. *)
Theorem classify_bands (score : Z) :
  (classify score = PANIC <-> score < 30)
  /\ (classify score = TRANSITION <-> 30 <= score < 50)
  /\ (classify score = EARLY_PHASE_1 <-> 50 <= score < 70)
  /\ (classify score = CONFIRMED_PHASE_1 <-> 70 <= score < 85)
  /\ (classify score = LATE_PHASE_1 <-> 85 <= score).
Proof.
  unfold classify.
  destruct (Z.ltb_spec score 30); [repeat split; intros; (discriminate || lia) |].
  destruct (Z.ltb_spec score 50); [repeat split; intros; (discriminate || lia) |].
  destruct (Z.ltb_spec score 70); [repeat split; intros; (discriminate || lia) |].
  destruct (Z.ltb_spec score 85); repeat split; intros; (discriminate || lia).
Qed.

Example classify_72 : classify 72 = CONFIRMED_PHASE_1.
Proof. reflexivity. Qed.

Example classify_70 : classify 70 = CONFIRMED_PHASE_1.
Proof. reflexivity. Qed.

Example classify_69 : classify 69 = EARLY_PHASE_1.
Proof. reflexivity. Qed.

(** ** Alert gate *)

(** C3. The phase alert fires exactly when the new regime differs from
    the stored one and is TRANSITION, EARLY_PHASE_1 or
    CONFIRMED_PHASE_1; it stays silent when the regime is unchanged and
    on every move into PANIC or LATE_PHASE_1. *)
Theorem should_alert_iff (new : Regime) (old : option Regime) :
  (should_alert new old = true <->
     old <> Some new
     /\ (new = TRANSITION \/ new = EARLY_PHASE_1 \/ new = CONFIRMED_PHASE_1))
  /\ should_alert new (Some new) = false
  /\ should_alert PANIC old = false
  /\ should_alert LATE_PHASE_1 old = false.
Proof.
  split; [split | repeat split].
  - unfold should_alert. intros Hfire.
    apply andb_true_iff in Hfire as [Hne Himp].
    apply negb_true_iff, bool_decide_eq_false in Hne.
    apply bool_decide_eq_true in Himp. unfold important in Himp.
    rewrite !elem_of_cons in Himp. rewrite elem_of_nil in Himp.
    split; [congruence | tauto].
  - intros [Hne Himp]. unfold should_alert. apply andb_true_iff. split.
    + apply negb_true_iff, bool_decide_eq_false. congruence.
    + apply bool_decide_eq_true. unfold important.
      rewrite !elem_of_cons. tauto.
  - unfold should_alert. rewrite bool_decide_eq_true_2 by reflexivity.
    reflexivity.
  - unfold should_alert. apply andb_false_iff. right. reflexivity.
  - unfold should_alert. apply andb_false_iff. right. reflexivity.
Qed.

(** ** Strength *)

Lemma clamp_nonpos (x : Z) : x <= 0 -> clamp 0 100 x = 0.
Proof. unfold clamp. lia. Qed.

Lemma clamp_range (x : Z) : 0 <= clamp 0 100 x <= 100.
Proof. unfold clamp. lia. Qed.

(** Dropping the fraction toward zero and toward minus infinity differ
    only below zero, where the clamp flattens both. *)
Lemma clamp_trunc_floor (x : Q) :
  clamp 0 100 (Qtrunc x) = clamp 0 100 (Qfloor x).
Proof.
  destruct x as [n d]. unfold Qtrunc, Qfloor. cbn [Qnum Qden].
  destruct (Z_le_gt_dec 0 n) as [Hn | Hn].
  - rewrite Z.quot_div_nonneg by lia. reflexivity.
  - rewrite !clamp_nonpos; [reflexivity | |].
    + assert (n / Z.pos d < 0) by (apply Z.div_lt_upper_bound; lia). lia.
    + assert (Hq : 0 <= (- n) ÷ Z.pos d) by (apply Z.quot_pos; lia).
      rewrite Z.quot_opp_l in Hq by lia. lia.
Qed.

Lemma signal_strength_floor (value : Q) (ideal_positive : bool) :
  signal_strength value ideal_positive
  = floored_strength (if ideal_positive then value else 0 - value).
Proof.
  unfold signal_strength, floored_strength.
  destruct ideal_positive; apply clamp_trunc_floor.
Qed.

(** C6, as amended. The strength of a metric is
    clamp(floor(sign_adjusted_value * 5 + 50), 0, 100): the fraction is
    dropped by [int()], not rounded to the nearest integer; the
    sign-adjusted value is the negated change for vix and vvix, the
    negated spread for spread and the raw change for spx. *)
Theorem compute_strengths_floor (changes : Changes) :
  q_vix (compute_strengths changes) = floored_strength (- vix_change changes)
  /\ q_vvix (compute_strengths changes) = floored_strength (- vvix_change changes)
  /\ q_spread (compute_strengths changes) = floored_strength (- spread changes)
  /\ q_spx (compute_strengths changes) = floored_strength (spx_change changes).
Proof.
  unfold compute_strengths. cbn [q_vix q_vvix q_spread q_spx].
  rewrite !signal_strength_floor. repeat split.
Qed.

(** C6, as stated, fails: an spx change of 1/8 gives 50.625, which the
    code turns into 50 and rounding into 51. *)
Lemma strength_is_not_rounded :
  let changes := {| vix_change := 0; vvix_change := 0; spx_change := 1 # 8;
                    spread := 0; spread_trending_down := false |} in
  q_spx (compute_strengths changes) = 50
  /\ rounded_strength (spx_change changes) = 51
  /\ q_spx (compute_strengths changes) <> rounded_strength (spx_change changes).
Proof. cbv zeta. repeat split. vm_compute. discriminate. Qed.

Lemma signal_strength_range (value : Q) (ideal_positive : bool) :
  0 <= signal_strength value ideal_positive <= 100.
Proof. rewrite signal_strength_floor. apply clamp_range. Qed.

(** ** Change computation *)

(** C8. With no previous snapshot the three percent changes are the
    constant 0 (no division takes place), the spread is still
    [vx1 - vx2], and [spread_trending_down] is false. *)
Theorem first_tick_changes (previous : Previous) (data : MarketSnapshot) :
  p_vix previous = None ->
  p_spread previous = None ->
  compute_changes previous data
  = Ok {| vix_change := 0; vvix_change := 0; spx_change := 0;
          spread := (vx1 data - vx2 data)%Q;
          spread_trending_down := false |}.
Proof.
  intros Hvix Hspread. unfold compute_changes.
  rewrite Hvix, Hspread. reflexivity.
Qed.

Lemma first_tick_changes_witness :
  let data := {| vix := 20; vvix := 100; spx := 5000;
                 vx1 := 30; vx2 := 31; vx3 := 32 |} in
  compute_changes previous_init data
  = Ok {| vix_change := 0; vvix_change := 0; spx_change := 0;
          spread := (30 - 31)%Q; spread_trending_down := false |}.
Proof.
  cbv zeta. apply (first_tick_changes previous_init); reflexivity.
Defined.

Lemma pct_change_ok (cur p : Q) :
  ~ (p == 0)%Q -> pct_change cur (Some p) = Ok ((cur - p) / p * 100)%Q.
Proof.
  intros Hp. unfold pct_change, div. cbn.
  destruct (Qeq_bool p 0) eqn:E; [| reflexivity].
  apply Qeq_bool_iff in E. contradiction.
Qed.

Lemma pct_change_zero (cur p : Q) :
  (p == 0)%Q -> pct_change cur (Some p) = Raise ZeroDivisionError.
Proof.
  intros Hp. unfold pct_change, div. cbn.
  apply Qeq_bool_iff in Hp. rewrite Hp. reflexivity.
Qed.

Lemma truthy_nonzero (p : Q) : ~ (p == 0)%Q -> truthy (Some p) = true.
Proof.
  intros Hp. cbn. destruct (Qeq_bool p 0) eqn:E; [| reflexivity].
  apply Qeq_bool_iff in E. contradiction.
Qed.

(** C9, as amended. When the previous snapshot has a nonzero vix and a
    zero vvix or spx, the change computation raises a division-by-zero
    error instead of producing percent changes. *)
Theorem zero_previous_raises (previous : Previous) (data : MarketSnapshot)
    (a b c : Q) :
  p_vix previous = Some a ->
  p_vvix previous = Some b ->
  p_spx previous = Some c ->
  ~ (a == 0)%Q ->
  (b == 0)%Q \/ (c == 0)%Q ->
  compute_changes previous data = Raise ZeroDivisionError.
Proof.
  intros Hvix Hvvix Hspx Ha Hbc. unfold compute_changes.
  rewrite Hvix, Hvvix, Hspx, (truthy_nonzero a Ha), (pct_change_ok _ a Ha).
  cbn [mbind result_bind].
  destruct (Qeq_dec b 0) as [Hb | Hb].
  - rewrite (pct_change_zero _ b Hb). reflexivity.
  - destruct Hbc as [Hb' | Hc]; [contradiction |].
    rewrite (pct_change_ok _ b Hb), (pct_change_zero _ c Hc). reflexivity.
Qed.

Lemma zero_previous_raises_witness :
  let previous := {| p_vix := Some 19%Q; p_vvix := Some 0%Q; p_spx := Some 5000%Q;
                     p_spread := Some (-1)%Q; p_regime := Some PANIC |} in
  let data := {| vix := 20; vvix := 100; spx := 5000;
                 vx1 := 30; vx2 := 31; vx3 := 32 |} in
  compute_changes previous data = Raise ZeroDivisionError.
Proof.
  cbv zeta.
  apply (zero_previous_raises _ _ 19 0 5000); try reflexivity.
  - intros H. discriminate H.
  - left. reflexivity.
Defined.

(** C9, as stated, fails: a previous vix of exactly zero takes the
    first-tick branch, and the changes come out as 0 with no error. *)
Lemma zero_previous_vix_is_silent :
  let previous := {| p_vix := Some 0%Q; p_vvix := Some 100%Q; p_spx := Some 5000%Q;
                     p_spread := Some (-1)%Q; p_regime := Some PANIC |} in
  let data := {| vix := 20; vvix := 100; spx := 5000;
                 vx1 := 30; vx2 := 31; vx3 := 32 |} in
  compute_changes previous data
  = Ok {| vix_change := 0; vvix_change := 0; spx_change := 0;
          spread := (30 - 31)%Q; spread_trending_down := false |}.
Proof. reflexivity. Qed.

(** ** Spike filter *)

Lemma Qltb_scaled_up (x : Q) : (0 < x)%Q -> Qltb (x * (101 # 100)) x = false.
Proof.
  intros Hx. apply Qltb_nlt. destruct x as [n d].
  unfold Qlt, Qmult in *. cbn in *. nia.
Qed.

(** C10. A snapshot built by [fetch_market_data] has
    [vx3 = vx2 * 1.01]; with [vx2 > 0] the test [vx2 > vx3] fails, so
    [fake_spike] is false on it whatever the changes are. *)
Theorem fetched_snapshot_never_spikes (get_price : string -> Q)
    (changes : Changes) :
  (0 < get_price "UVXY")%Q ->
  fake_spike (fetch_market_data get_price) changes = false.
Proof.
  intros Hpos. unfold fake_spike, fetch_market_data. cbn [vx1 vx2 vx3].
  rewrite (Qltb_scaled_up _ Hpos). rewrite !andb_false_r. reflexivity.
Qed.

Lemma fetched_snapshot_never_spikes_witness :
  let get_price := fun symbol : string =>
    if String.eqb symbol "VIXY" then 40%Q else 31%Q in
  let changes := {| vix_change := 5; vvix_change := 5; spx_change := 0;
                    spread := 9; spread_trending_down := false |} in
  (0 < get_price "UVXY")%Q
  /\ fake_spike (fetch_market_data get_price) changes = false.
Proof.
  cbv zeta. split; [reflexivity |].
  apply fetched_snapshot_never_spikes. reflexivity.
Defined.

(** ** Bounded buffers *)

Lemma dq_append_maxlen {A} (d : deque A) (x : A) :
  dq_maxlen (dq_append d x) = dq_maxlen d.
Proof. reflexivity. Qed.

Lemma dq_append_bounded {A} (d : deque A) (x : A) :
  bounded d -> bounded (dq_append d x).
Proof.
  unfold bounded, dq_append. cbn [dq_items dq_maxlen]. intros Hd.
  destruct (Nat.ltb_spec (dq_maxlen d) (length (dq_items d ++ [x]))) as [Hlt | Hge].
  - rewrite length_drop, length_app. cbn. lia.
  - exact Hge.
Qed.

Lemma foldl_append_maxlen {A} (xs : list A) (d : deque A) :
  dq_maxlen (foldl dq_append d xs) = dq_maxlen d.
Proof.
  revert d. induction xs as [| x xs IH]; intros d; [reflexivity |].
  cbn [foldl]. rewrite IH. reflexivity.
Qed.

Lemma foldl_append_bounded {A} (xs : list A) (d : deque A) :
  bounded d -> bounded (foldl dq_append d xs).
Proof.
  revert d. induction xs as [| x xs IH]; intros d Hd; [exact Hd |].
  cbn [foldl]. apply IH, dq_append_bounded, Hd.
Qed.

Lemma dq_new_maxlen {A} (xs : list A) (n : nat) : dq_maxlen (dq_new xs n) = n.
Proof. unfold dq_new. apply foldl_append_maxlen. Qed.

Lemma dq_new_bounded {A} (xs : list A) (n : nat) : bounded (dq_new xs n).
Proof.
  unfold dq_new. apply foldl_append_bounded. unfold bounded. cbn. lia.
Qed.

Lemma lastn_all {A} (n : nat) (l : list A) :
  (length l <= n)%nat -> lastn n l = l.
Proof.
  intros Hl. unfold lastn. replace (length l - n)%nat with 0%nat by lia.
  reflexivity.
Qed.

Lemma length_lastn {A} (n : nat) (l : list A) :
  length (lastn n l) = Nat.min n (length l).
Proof. unfold lastn. rewrite length_drop. lia. Qed.

(** Only the last [n] of what came before matter for the last [n]. *)
Lemma lastn_app_lastn {A} (n : nat) (a b : list A) :
  lastn n (lastn n a ++ b) = lastn n (a ++ b).
Proof.
  destruct (Nat.le_gt_cases (length a) n) as [Ha | Ha].
  - rewrite (lastn_all n a Ha). reflexivity.
  - unfold lastn at 1 3. rewrite !length_app, length_lastn.
    replace (Nat.min n (length a)) with n by lia.
    unfold lastn.
    destruct (Nat.le_gt_cases (length b) n) as [Hb | Hb].
    + rewrite !drop_app_le by (rewrite ?length_drop; lia).
      rewrite drop_drop. f_equal. f_equal. lia.
    + rewrite !drop_app_ge by (rewrite ?length_drop; lia).
      rewrite length_drop. f_equal. lia.
Qed.

Lemma dq_append_items {A} (d : deque A) (x : A) :
  bounded d ->
  dq_items (dq_append d x) = lastn (dq_maxlen d) (dq_items d ++ [x]).
Proof.
  unfold bounded, dq_append, lastn. cbn [dq_items dq_maxlen]. intros Hd.
  destruct (Nat.ltb_spec (dq_maxlen d) (length (dq_items d ++ [x]))) as [Hlt | Hge].
  - rewrite length_app in *. cbn [length] in *. f_equal. lia.
  - replace (length (dq_items d ++ [x]) - dq_maxlen d)%nat with 0%nat by lia.
    reflexivity.
Qed.

(** First in, first out: after any run of appends a bounded buffer
    holds the last [maxlen] elements of what it held followed by what
    was appended. *)
Lemma foldl_append_items {A} (ys : list A) (d : deque A) :
  bounded d ->
  dq_items (foldl dq_append d ys) = lastn (dq_maxlen d) (dq_items d ++ ys).
Proof.
  revert d. induction ys as [| y ys IH]; intros d Hd.
  - cbn [foldl]. rewrite app_nil_r. symmetry. apply lastn_all, Hd.
  - cbn [foldl]. rewrite IH by (apply dq_append_bounded, Hd).
    rewrite dq_append_maxlen, (dq_append_items d y Hd), lastn_app_lastn.
    rewrite <- app_assoc. reflexivity.
Qed.

Lemma history_init_ok : buffers_ok history_init.
Proof.
  split.
  - unfold history_init. rewrite <- map_fmap_compose.
    apply map_eq. intros k. rewrite lookup_fmap.
    destruct (declared_capacity !! k); reflexivity.
  - unfold history_init. intros k d Hk.
    rewrite lookup_fmap in Hk.
    destruct (declared_capacity !! k); [| discriminate].
    injection Hk as <-. unfold bounded. cbn. lia.
Qed.

Lemma buffers_ok_insert (h : gmap string (deque hval)) (k : string)
    (d d' : deque hval) :
  h !! k = Some d ->
  dq_maxlen d' = dq_maxlen d ->
  bounded d' ->
  buffers_ok h -> buffers_ok (<[k := d']> h).
Proof.
  intros Hk Hmax Hd' [Hcap Hall]. split.
  - rewrite fmap_insert, Hcap, Hmax. apply insert_id.
    rewrite <- Hcap, lookup_fmap, Hk. reflexivity.
  - apply map_Forall_insert_2; assumption.
Qed.

(** What [buffers_ok] says of one key. *)
Lemma buffers_ok_lookup (h : gmap string (deque hval)) (k : string) (c : nat) :
  buffers_ok h ->
  declared_capacity !! k = Some c ->
  exists d, h !! k = Some d /\ dq_maxlen d = c
            /\ (length (dq_items d) <= c)%nat.
Proof.
  intros [Hcap Hall] Hk. rewrite <- Hcap, lookup_fmap in Hk.
  destruct (h !! k) as [d |] eqn:Hd; [| discriminate].
  injection Hk as <-. exists d. repeat split. exact (Hall k d Hd).
Qed.

(** ** Reasoning about the monad *)

Lemma bind_ok {A B} (m : M A) (f : A -> M B) (s s' : State) (a : A) :
  m s = (Ok a, s') -> (m ≫= f) s = f a s'.
Proof. intros Hm. unfold mbind, M_bind. rewrite Hm. reflexivity. Qed.

Lemma bind_raise {A B} (m : M A) (f : A -> M B) (s s' : State) (e : exn) :
  m s = (Raise e, s') -> (m ≫= f) s = (Raise e, s').
Proof. intros Hm. unfold mbind, M_bind. rewrite Hm. reflexivity. Qed.

(** ** Steps that are known to return *)

Lemma hist_get_ok (k : string) (s : State) (d : deque hval) :
  history s !! k = Some d -> hist_get k s = (Ok d, s).
Proof.
  intros Hk. unfold hist_get, mbind, M_bind, get. rewrite Hk. reflexivity.
Qed.

Lemma hist_append_ok (k : string) (x : hval) (s : State) (d : deque hval) :
  history s !! k = Some d ->
  hist_append k x s
  = (Ok tt, set_history (<[k := dq_append d x]> (history s)) s).
Proof.
  intros Hk. unfold hist_append.
  rewrite (bind_ok _ _ _ _ _ (hist_get_ok k s d Hk)). reflexivity.
Qed.

Lemma py_sum_from_numeric (xs : list hval) (acc : Q) :
  Forall (fun x => exists q, x = HNum q) xs ->
  exists total, py_sum_from acc xs = Ok total.
Proof.
  intros Hxs. revert acc. induction Hxs as [| x xs [q ->] _ IH]; intros acc.
  - exists acc. reflexivity.
  - cbn [py_sum_from]. apply IH.
Qed.

Lemma div_by_length (total : Q) (n : nat) :
  (0 < n)%nat ->
  div total (inject_Z (Z.of_nat n)) = Ok (total / inject_Z (Z.of_nat n))%Q.
Proof.
  intros Hn. unfold div.
  destruct (Qeq_bool (inject_Z (Z.of_nat n)) 0) eqn:E; [| reflexivity].
  apply Qeq_bool_iff in E. unfold Qeq, inject_Z in E. cbn in E. lia.
Qed.

Lemma average_ok (k : string) (s : State) (d : deque hval) :
  history s !! k = Some d ->
  numeric d ->
  (0 < length (dq_items d))%nat ->
  exists mean, average k s = (Ok mean, s).
Proof.
  intros Hk Hnum Hlen. unfold average.
  destruct (py_sum_from_numeric (dq_items d) 0%Q Hnum) as [total Htotal].
  exists (total / inject_Z (Z.of_nat (length (dq_items d))))%Q.
  rewrite (bind_ok _ _ _ _ _ (hist_get_ok k s d Hk)).
  unfold py_sum. rewrite Htotal.
  rewrite (bind_ok _ _ s s total eq_refl).
  rewrite (bind_ok _ _ _ _ _ (hist_get_ok k s d Hk)).
  rewrite (div_by_length _ _ Hlen). reflexivity.
Qed.

Lemma dq_append_numeric (d : deque hval) (z : Z) :
  numeric d -> numeric (dq_append d (HInt z)).
Proof.
  unfold numeric, dq_append. cbn [dq_items]. intros Hd.
  assert (Hall : Forall (fun x => exists q, x = HNum q) (dq_items d ++ [HInt z])).
  { apply Forall_app. split; [exact Hd |].
    constructor; [| constructor]. eexists. reflexivity. }
  destruct (dq_maxlen d <? length (dq_items d ++ [HInt z]))%nat;
    [apply Forall_drop |]; exact Hall.
Qed.

Lemma dq_append_nonempty {A} (d : deque A) (x : A) :
  (0 < dq_maxlen d)%nat -> (0 < length (dq_items (dq_append d x)))%nat.
Proof.
  unfold dq_append. cbn [dq_items dq_maxlen]. intros Hmax.
  destruct (Nat.ltb_spec (dq_maxlen d) (length (dq_items d ++ [x]))) as [Hlt | Hge].
  - rewrite length_drop. lia.
  - rewrite length_app. cbn. lia.
Qed.

(** On a buffer of numbers with room for at least one element,
    [smoothed_strength] returns, and its one effect is the append. *)
Lemma smoothed_strength_ok (name : string) (z : Z) (s : State)
    (d : deque hval) :
  history s !! name = Some d ->
  numeric d ->
  (0 < dq_maxlen d)%nat ->
  exists mean,
    smoothed_strength name z s
    = (Ok mean,
       set_history (<[name := dq_append d (HInt z)]> (history s)) s).
Proof.
  intros Hk Hnum Hmax. unfold smoothed_strength.
  rewrite (bind_ok _ _ _ _ _ (hist_append_ok name (HInt z) s d Hk)).
  destruct (average_ok name
              (set_history (<[name := dq_append d (HInt z)]> (history s)) s)
              (dq_append d (HInt z))) as [mean Hmean].
  - cbn [history set_history]. apply lookup_insert_eq.
  - apply dq_append_numeric, Hnum.
  - apply dq_append_nonempty, Hmax.
  - exists (Qtrunc mean). rewrite (bind_ok _ _ _ _ _ Hmean). reflexivity.
Qed.

Section Preserves.

Variable I : State -> Prop.

Lemma preserves_ret {A} (a : A) : preserves I (mret a).
Proof. intros s Hs. exact Hs. Qed.

Lemma preserves_raise {A} (e : exn) : preserves I (@raise A e).
Proof. intros s Hs. exact Hs. Qed.

Lemma preserves_lift {A} (r : result A) : preserves I (lift r).
Proof. intros s Hs. exact Hs. Qed.

Lemma preserves_get : preserves I get.
Proof. intros s Hs. exact Hs. Qed.

Lemma preserves_bind {A B} (m : M A) (f : A -> M B) :
  preserves I m -> (forall a, preserves I (f a)) -> preserves I (m ≫= f).
Proof.
  intros Hm Hf s Hs. specialize (Hm s Hs).
  unfold mbind, M_bind. destruct (m s) as [[a | e] s'].
  - apply Hf, Hm.
  - exact Hm.
Qed.

(** The state a computation ends in satisfies [I] as soon as the state
    its first part ends in does, and the rest keeps [I]. *)
Lemma preserves_after {A B} (m : M A) (f : A -> M B) (s : State) :
  I (m s).2 -> (forall a, preserves I (f a)) -> I ((m ≫= f) s).2.
Proof.
  intros Hm Hf. unfold mbind, M_bind. destruct (m s) as [[a | e] s'].
  - apply Hf, Hm.
  - exact Hm.
Qed.

Lemma preserves_if {A} (b : bool) (m1 m2 : M A) :
  preserves I m1 -> preserves I m2 -> preserves I (if b then m1 else m2).
Proof. destruct b; intros; assumption. Qed.

Lemma preserves_try_except {A} (m : M A) (h : exn -> M A) :
  preserves I m -> (forall e, preserves I (h e)) ->
  preserves I (try_except m h).
Proof.
  intros Hm Hh s Hs. specialize (Hm s Hs).
  unfold try_except. destruct (m s) as [[a | e] s'].
  - exact Hm.
  - apply Hh, Hm.
Qed.

Lemma preserves_try_after {A} (m : M A) (h : exn -> M A) (s : State) :
  I (m s).2 -> (forall e, preserves I (h e)) -> I (try_except m h s).2.
Proof.
  intros Hm Hh. unfold try_except. destruct (m s) as [[a | e] s'].
  - exact Hm.
  - apply Hh, Hm.
Qed.

Lemma preserves_for_each {A} (l : list A) (f : A -> M unit) :
  (forall x, preserves I (f x)) -> preserves I (for_each l f).
Proof.
  intros Hf. induction l as [| x l IH]; cbn [for_each].
  - apply preserves_ret.
  - apply preserves_bind; [apply Hf | intros _; exact IH].
Qed.

Lemma preserves_collect {A B} (l : list A) (f : A -> M B) :
  (forall x, preserves I (f x)) -> preserves I (collect l f).
Proof.
  intros Hf. induction l as [| x l IH]; cbn [collect].
  - apply preserves_ret.
  - apply preserves_bind; [apply Hf | intros y].
    apply preserves_bind; [exact IH | intros ys; apply preserves_ret].
Qed.

Lemma preserves_modify (f : State -> State) :
  (forall s, I s -> I (f s)) -> preserves I (modify f).
Proof. intros Hf s Hs. apply Hf, Hs. Qed.

(** *** Reads *)

Lemma preserves_hist_get (k : string) : preserves I (hist_get k).
Proof.
  intros s Hs. unfold hist_get, mbind, M_bind, get.
  destruct (history s !! k); exact Hs.
Qed.

Lemma preserves_hist_index (k : string) (i : nat) :
  preserves I (hist_index k i).
Proof.
  unfold hist_index. apply preserves_bind; [apply preserves_hist_get |].
  intros d. destruct (dq_items d !! i);
    [apply preserves_ret | apply preserves_raise].
Qed.

Lemma preserves_average (k : string) : preserves I (average k).
Proof.
  unfold average.
  repeat (apply preserves_bind;
          [first [apply preserves_hist_get | apply preserves_lift] | intros ?]).
  apply preserves_lift.
Qed.

Lemma preserves_week_arrow (k : string) : preserves I (week_arrow k).
Proof.
  unfold week_arrow. apply preserves_bind; [apply preserves_hist_get |].
  intros d. apply preserves_lift.
Qed.

Lemma preserves_chart_of (k : string) : preserves I (chart_of k).
Proof.
  unfold chart_of. apply preserves_bind; [apply preserves_hist_get |].
  intros d. apply preserves_lift.
Qed.

Lemma preserves_dashboard_row (i : nat) : preserves I (dashboard_row i).
Proof.
  unfold dashboard_row.
  repeat (apply preserves_bind;
          [first [apply preserves_hist_index | apply preserves_lift] | intros ?]).
  apply preserves_ret.
Qed.

(** *** Writes outside [history] *)

Hypothesis I_sent : forall l s, I s -> I (set_sent l s).
Hypothesis I_file : forall f s, I s -> I (set_history_file f s).
Hypothesis I_clock : forall t s, I s -> I (set_last_weekly_alert t s).
Hypothesis I_previous : forall p s, I s -> I (set_previous p s).

Lemma preserves_send_telegram (msg : message) :
  preserves I (send_telegram msg).
Proof. apply preserves_modify. intros s Hs. apply I_sent, Hs. Qed.

Lemma preserves_save_history : preserves I save_history.
Proof. apply preserves_modify. intros s Hs. apply I_file, Hs. Qed.

Lemma preserves_send_weekly_dashboard : preserves I send_weekly_dashboard.
Proof.
  unfold send_weekly_dashboard.
  apply preserves_bind; [apply preserves_hist_get | intros d].
  apply preserves_if; [apply preserves_ret |].
  repeat (apply preserves_bind;
          [first [apply preserves_average | apply preserves_hist_get
                 | apply preserves_week_arrow | apply preserves_get
                 | apply preserves_collect; intros ?;
                   apply preserves_dashboard_row]
          | intros ?]).
  apply preserves_send_telegram.
Qed.

(** The tail of a scored iteration: dashboard gate and the update of
    [previous]. *)
Lemma preserves_tick_tail (w : Tick) (p : Previous) :
  preserves I
    (s ← get;
     (if 24 * 3600 <? t_now w - last_weekly_alert s
      then send_weekly_dashboard;; modify (set_last_weekly_alert (t_now w))
      else mret tt);;
     modify (set_previous p)).
Proof.
  apply preserves_bind; [apply preserves_get | intros s].
  apply preserves_bind.
  - apply preserves_if; [| apply preserves_ret].
    apply preserves_bind; [apply preserves_send_weekly_dashboard | intros _].
    apply preserves_modify. intros s' Hs'. apply I_clock, Hs'.
  - intros _. apply preserves_modify. intros s' Hs'. apply I_previous, Hs'.
Qed.

(** *** Writes to [history] *)

(** [I] survives an append to a trend or weekly buffer. *)
Hypothesis I_record : forall k d x s,
  k ∈ record_keys -> history s !! k = Some d -> I s ->
  I (set_history (<[k := dq_append d x]> (history s)) s).

Lemma preserves_record_append (k : string) (x : hval) :
  k ∈ record_keys -> preserves I (hist_append k x).
Proof.
  intros Hk s Hs. destruct (history s !! k) as [d |] eqn:Hd.
  - rewrite (hist_append_ok k x s d Hd). cbn [snd]. apply I_record; assumption.
  - unfold hist_append, hist_get, mbind, M_bind, get. rewrite Hd. exact Hs.
Qed.

Local Ltac record_key :=
  unfold record_keys; rewrite !elem_of_cons; tauto.

Local Ltac preserves_step :=
  first
    [ apply preserves_ret
    | apply preserves_send_telegram; assumption
    | apply preserves_save_history; assumption
    | apply preserves_chart_of
    | apply preserves_record_append; record_key
    | apply preserves_bind; [| intros ?] ].

(** The blocks of [phase_alert] after the smoothing block keep [I]:
    ten appends, the save, the charts and the message. *)
Lemma phase_alert_after_smoothing (w : Tick) (changes : Changes)
    (score : Z) (regime : Regime) (s : State) (ds : Quad (deque hval)) :
  history s !! "vix_strength" = Some (q_vix ds) ->
  history s !! "vvix_strength" = Some (q_vvix ds) ->
  history s !! "spread_strength" = Some (q_spread ds) ->
  history s !! "spx_strength" = Some (q_spx ds) ->
  numeric (q_vix ds) -> numeric (q_vvix ds) ->
  numeric (q_spread ds) -> numeric (q_spx ds) ->
  (0 < dq_maxlen (q_vix ds))%nat -> (0 < dq_maxlen (q_vvix ds))%nat ->
  (0 < dq_maxlen (q_spread ds))%nat -> (0 < dq_maxlen (q_spx ds))%nat ->
  I (set_history (smoothed changes (history s) ds) s) ->
  I (phase_alert w changes score regime s).2.
Proof.
  intros K1 K2 K3 K4 N1 N2 N3 N4 M1 M2 M3 M4 Hpost.
  unfold phase_alert.
  unfold smoothed in Hpost.
  destruct (compute_strengths changes) as [x1 x2 x3 x4].
  cbn [q_vix q_vvix q_spread q_spx] in Hpost.
  destruct (smoothed_strength_ok "vix_strength" x1 s _ K1 N1 M1) as [m1 E1].
  rewrite (bind_ok _ _ _ _ _ E1).
  match type of E1 with _ = (_, ?s1) =>
    destruct (smoothed_strength_ok "vvix_strength" x2 s1 (q_vvix ds))
      as [m2 E2]; [cbn [history set_history];
                   rewrite lookup_insert_ne by discriminate; exact K2
                  | exact N2 | exact M2 |]
  end.
  rewrite (bind_ok _ _ _ _ _ E2).
  match type of E2 with _ = (_, ?s2) =>
    destruct (smoothed_strength_ok "spread_strength" x3 s2 (q_spread ds))
      as [m3 E3]; [cbn [history set_history];
                   rewrite !lookup_insert_ne by discriminate; exact K3
                  | exact N3 | exact M3 |]
  end.
  rewrite (bind_ok _ _ _ _ _ E3).
  match type of E3 with _ = (_, ?s3) =>
    destruct (smoothed_strength_ok "spx_strength" x4 s3 (q_spx ds))
      as [m4 E4]; [cbn [history set_history];
                   rewrite !lookup_insert_ne by discriminate; exact K4
                  | exact N4 | exact M4 |]
  end.
  rewrite (bind_ok _ _ _ _ _ E4).
  cbn [history set_history].
  match goal with |- I (?m ?s5).2 =>
    assert (Hrest : preserves I m) by (repeat preserves_step);
    apply Hrest
  end.
  clear -Hpost. destruct s. exact Hpost.
Qed.

(** The state at the phase alert gate is the entry state, up to the
    early-warning message; whatever the gate's branch establishes and
    the rest of the iteration keeps holds when [scored_tick] ends. *)
Lemma scored_tick_gate (w : Tick) (changes : Changes) (s : State) :
  (forall s1, s1 = s \/ (exists l, s1 = set_sent l s) ->
     I ((if should_alert (classify (probability_score (t_data w) changes))
                         (p_regime (previous s))
         then phase_alert w changes (probability_score (t_data w) changes)
                (classify (probability_score (t_data w) changes))
         else mret tt) s1).2) ->
  I (scored_tick w changes s).2.
Proof.
  intros Hgate. unfold scored_tick.
  assert (Hearly : exists s1,
            (if should_early_warning_alert changes
             then send_telegram (MsgEarlyWarning (spread changes))
             else mret tt) s = (Ok tt, s1)
            /\ (s1 = s \/ exists l, s1 = set_sent l s)).
  { destruct (should_early_warning_alert changes); eexists; split;
      try reflexivity; [right; eexists; reflexivity | left; reflexivity]. }
  destruct Hearly as (s1 & Hearly & Hs1).
  rewrite (bind_ok _ _ _ _ _ Hearly).
  rewrite (bind_ok get _ s1 s1 s1 eq_refl).
  assert (Hprev : previous s1 = previous s).
  { destruct Hs1 as [-> | [l ->]]; reflexivity. }
  rewrite Hprev.
  apply preserves_after; [apply Hgate, Hs1 | intros _].
  apply preserves_tick_tail.
Qed.

(** A scored iteration on which the phase alert does not fire. *)
Lemma scored_tick_quiet (w : Tick) (changes : Changes) (s : State) :
  should_alert (classify (probability_score (t_data w) changes))
               (p_regime (previous s)) = false ->
  I s -> I (scored_tick w changes s).2.
Proof.
  intros Hquiet Hs. apply scored_tick_gate. rewrite Hquiet.
  intros s1 [-> | [l ->]]; cbn; [exact Hs | apply I_sent, Hs].
Qed.

(** [I] survives an append to a smoothing buffer. *)
Hypothesis I_smooth : forall k d z s,
  k ∈ smoothing_keys -> history s !! k = Some d -> I s ->
  I (set_history (<[k := dq_append d (HInt z)]> (history s)) s).

Lemma preserves_smoothed_strength (name : string) (z : Z) :
  name ∈ smoothing_keys -> preserves I (smoothed_strength name z).
Proof.
  intros Hk. unfold smoothed_strength. apply preserves_bind.
  - intros s Hs. destruct (history s !! name) as [d |] eqn:Hd.
    + rewrite (hist_append_ok name _ s d Hd). cbn [snd].
      apply I_smooth; assumption.
    + unfold hist_append, hist_get, mbind, M_bind, get. rewrite Hd. exact Hs.
  - intros _. apply preserves_bind; [apply preserves_average | intros mean].
    apply preserves_ret.
Qed.

Local Ltac smoothing_key :=
  unfold smoothing_keys; rewrite !elem_of_cons; tauto.

Lemma preserves_phase_alert (w : Tick) (changes : Changes) (score : Z)
    (regime : Regime) :
  preserves I (phase_alert w changes score regime).
Proof.
  unfold phase_alert. destruct (compute_strengths changes) as [x1 x2 x3 x4].
  repeat first [ apply preserves_smoothed_strength; smoothing_key
               | preserves_step ].
Qed.

Lemma preserves_scored_tick (w : Tick) (changes : Changes) :
  preserves I (scored_tick w changes).
Proof.
  intros s Hs. apply scored_tick_gate.
  intros s1 Hs1.
  assert (Hs1' : I s1).
  { destruct Hs1 as [-> | [l ->]]; [exact Hs | apply I_sent, Hs]. }
  revert s1 Hs1' Hs1.
  destruct (should_alert _ _); intros s1 Hs1' _.
  - apply preserves_phase_alert, Hs1'.
  - exact Hs1'.
Qed.

Lemma preserves_tick_body (w : Tick) : preserves I (tick_body w).
Proof.
  unfold tick_body.
  apply preserves_bind; [apply preserves_get | intros s].
  apply preserves_bind; [apply preserves_lift | intros changes].
  apply preserves_if;
    [apply preserves_send_telegram | apply preserves_scored_tick].
Qed.

Lemma preserves_tick (w : Tick) : preserves I (tick w).
Proof.
  unfold tick. apply preserves_try_except; [apply preserves_tick_body |].
  intros e. apply preserves_send_telegram.
Qed.

End Preserves.

(** ** Capacity of the buffers *)

Lemma buffers_ok_append (k : string) (d : deque hval) (x : hval) (s : State) :
  history s !! k = Some d ->
  buffers_ok (history s) ->
  buffers_ok (history (set_history (<[k := dq_append d x]> (history s)) s)).
Proof.
  intros Hk Hok. cbn [history set_history].
  apply (buffers_ok_insert _ k d); try assumption; [reflexivity |].
  apply dq_append_bounded. destruct Hok as [_ Hall]. exact (Hall k d Hk).
Qed.

Lemma load_history_buffers_ok :
  preserves (fun s => buffers_ok (history s)) load_history.
Proof.
  unfold load_history.
  apply preserves_bind; [apply preserves_get | intros s0].
  destruct (history_file s0) as [data |]; [| apply preserves_ret].
  apply preserves_for_each. intros [k xs] s Hs.
  destruct (history s !! k) as [d |] eqn:Hd.
  - rewrite (bind_ok _ _ _ _ _ (hist_get_ok k s d Hd)).
    cbn [modify snd history set_history].
    apply (buffers_ok_insert _ k d); try assumption.
    + apply dq_new_maxlen.
    + apply dq_new_bounded.
  - unfold hist_get, mbind, M_bind, get. rewrite Hd. exact Hs.
Qed.

Lemma tick_buffers_ok (w : Tick) :
  preserves (fun s => buffers_ok (history s)) (tick w).
Proof.
  apply preserves_tick; try (intros; assumption).
  - intros k d x s _. apply buffers_ok_append.
  - intros k d x s _. apply buffers_ok_append.
Qed.

Lemma run_buffers_ok (now0 : Z) (ticks : list Tick) :
  preserves (fun s => buffers_ok (history s)) (run now0 ticks).
Proof.
  unfold run.
  apply preserves_bind; [apply load_history_buffers_ok | intros _].
  apply preserves_bind;
    [apply preserves_send_telegram; intros; assumption | intros _].
  apply preserves_bind;
    [apply preserves_modify; intros; assumption | intros _].
  apply preserves_for_each. apply tick_buffers_ok.
Qed.

(** C4. Every key of [history] keeps a buffer of its declared capacity
    (3 for the smoothing keys, 5 for the trend keys, 7 for the weekly
    keys) whose length is at most that capacity: in every state [run]
    reaches, whatever the history file holds and whatever the ticks
    bring, and right after [load_history]. A buffer holds the last
    [maxlen] elements of what was put in, so the oldest go first. *)
Theorem buffers_never_exceed_capacity :
  (forall file now0 ticks,
     buffers_ok (history (run now0 ticks (state_init file)).2))
  /\ (forall file, buffers_ok (history (load_history (state_init file)).2))
  /\ (forall (xs ys : list hval) (n : nat),
        dq_items (foldl dq_append (dq_new xs n) ys) = lastn n (xs ++ ys)).
Proof.
  split; [| split].
  - intros file now0 ticks.
    apply (run_buffers_ok now0 ticks (state_init file)), history_init_ok.
  - intros file.
    apply (load_history_buffers_ok (state_init file)), history_init_ok.
  - intros xs ys n. unfold dq_new. rewrite <- foldl_app.
    rewrite foldl_append_items by (unfold bounded; cbn; lia).
    reflexivity.
Qed.

(** A file with nine entries for a weekly key is cut to the last seven
    when it is loaded. *)
Example load_history_truncates :
  let file := Some [("vix_week",
                     [HInt 1; HInt 2; HInt 3; HInt 4; HInt 5;
                      HInt 6; HInt 7; HInt 8; HInt 9])] in
  dq_items <$> history (load_history (state_init file)).2 !! "vix_week"
  = Some [HInt 3; HInt 4; HInt 5; HInt 6; HInt 7; HInt 8; HInt 9].
Proof. reflexivity. Qed.

(** ** Spike filter: the short circuit *)

Lemma tick_body_changes (w : Tick) (s : State) (changes : Changes) :
  compute_changes (previous s) (t_data w) = Ok changes ->
  tick_body w s
  = (if fake_spike (t_data w) changes
     then send_telegram MsgFakeSpike
     else scored_tick w changes) s.
Proof.
  intros Hch. unfold tick_body.
  rewrite (bind_ok get _ s s s eq_refl). cbv beta. rewrite Hch.
  rewrite (bind_ok _ _ s s changes eq_refl). reflexivity.
Qed.

(** C7. When the spike filter holds, the iteration sends the spike
    message and ends: [previous], every buffer of [history], the
    dashboard clock and the history file are as before the tick, and
    nothing that depends on a score or a regime is sent. *)
Theorem spike_short_circuits (w : Tick) (s : State) (changes : Changes) :
  compute_changes (previous s) (t_data w) = Ok changes ->
  fake_spike (t_data w) changes = true ->
  tick w s = (Ok tt, set_sent (sent s ++ [MsgFakeSpike]) s)
  /\ previous (tick w s).2 = previous s
  /\ history (tick w s).2 = history s
  /\ last_weekly_alert (tick w s).2 = last_weekly_alert s
  /\ history_file (tick w s).2 = history_file s
  /\ sent (tick w s).2 = sent s ++ [MsgFakeSpike].
Proof.
  intros Hch Hspike.
  assert (Htick : tick w s = (Ok tt, set_sent (sent s ++ [MsgFakeSpike]) s)).
  { unfold tick, try_except.
    rewrite (tick_body_changes w s changes Hch), Hspike. reflexivity. }
  rewrite Htick. repeat split.
Qed.

Lemma spike_short_circuits_witness :
  let s := set_previous
             {| p_vix := Some 20%Q; p_vvix := Some 100%Q; p_spx := Some 5000%Q;
                p_spread := Some 1%Q; p_regime := Some PANIC |}
             (state_init None) in
  let w := {| t_data := {| vix := 22; vvix := 110; spx := 4900;
                           vx1 := 32; vx2 := 31; vx3 := 30 |};
              t_now := 1200; t_today := "11-04" |} in
  previous (tick w s).2 = previous s
  /\ history (tick w s).2 = history s
  /\ sent (tick w s).2 = [MsgFakeSpike].
Proof.
  intros s w.
  destruct (spike_short_circuits w s
              {| vix_change := (22 - 20) / 20 * 100;
                 vvix_change := (110 - 100) / 100 * 100;
                 spx_change := (4900 - 5000) / 5000 * 100;
                 spread := 32 - 31; spread_trending_down := false |})
    as (_ & Hp & Hh & _ & _ & Hs); [reflexivity | reflexivity |].
  split; [exact Hp | split; [exact Hh | exact Hs]].
Defined.

(** ** Smoothing buffers *)

Lemma smoothing_not_record (k k' : string) :
  k ∈ smoothing_keys -> k' ∈ record_keys -> k' <> k.
Proof.
  unfold smoothing_keys, record_keys. rewrite !elem_of_cons, !elem_of_nil.
  intros Hk Hk'.
  repeat (destruct Hk as [-> | Hk]); try contradiction;
    repeat (destruct Hk' as [-> | Hk']); try contradiction; discriminate.
Qed.

(** On an iteration whose phase alert fires, a smoothing key ends up
    holding what the smoothing block put there. *)
Lemma alert_tick_smoothing (w : Tick) (s : State) (changes : Changes)
    (ds : Quad (deque hval)) (k : string) :
  k ∈ smoothing_keys ->
  history s !! "vix_strength" = Some (q_vix ds) ->
  history s !! "vvix_strength" = Some (q_vvix ds) ->
  history s !! "spread_strength" = Some (q_spread ds) ->
  history s !! "spx_strength" = Some (q_spx ds) ->
  numeric (q_vix ds) -> numeric (q_vvix ds) ->
  numeric (q_spread ds) -> numeric (q_spx ds) ->
  (0 < dq_maxlen (q_vix ds))%nat -> (0 < dq_maxlen (q_vvix ds))%nat ->
  (0 < dq_maxlen (q_spread ds))%nat -> (0 < dq_maxlen (q_spx ds))%nat ->
  compute_changes (previous s) (t_data w) = Ok changes ->
  fake_spike (t_data w) changes = false ->
  should_alert (classify (probability_score (t_data w) changes))
               (p_regime (previous s)) = true ->
  history (tick w s).2 !! k = smoothed changes (history s) ds !! k.
Proof.
  intros Hk K1 K2 K3 K4 N1 N2 N3 N4 M1 M2 M3 M4 Hch Hspike Halert.
  set (I := fun s' : State =>
              history s' !! k = smoothed changes (history s) ds !! k).
  assert (I_other : forall (f : State -> State),
            (forall s', history (f s') = history s') ->
            forall s', I s' -> I (f s')).
  { intros f Hf s' Hs'. unfold I. rewrite Hf. exact Hs'. }
  assert (I_record : forall k' d x s', k' ∈ record_keys ->
            history s' !! k' = Some d -> I s' ->
            I (set_history (<[k' := dq_append d x]> (history s')) s')).
  { intros k' d x s' Hk' _ Hs'. unfold I. cbn [history set_history].
    rewrite lookup_insert_ne by (apply (smoothing_not_record k k' Hk Hk')).
    exact Hs'. }
  change (I (tick w s).2). unfold tick.
  apply preserves_try_after;
    [| intros e; apply preserves_send_telegram; intros l; apply I_other;
       reflexivity].
  rewrite (tick_body_changes w s changes Hch), Hspike.
  apply scored_tick_gate.
  - intros l. apply I_other. reflexivity.
  - intros t. apply I_other. reflexivity.
  - intros p. apply I_other. reflexivity.
  - rewrite Halert. intros s1 Hs1.
    assert (Hh : history s1 = history s).
    { destruct Hs1 as [-> | [l ->]]; reflexivity. }
    apply (phase_alert_after_smoothing I) with (ds := ds);
      try (rewrite Hh; assumption); try assumption.
    + intros l. apply I_other. reflexivity.
    + intros f. apply I_other. reflexivity.
    + unfold I. cbn [history set_history]. rewrite Hh. reflexivity.
Qed.


Lemma history_init_numeric (k : string) (d : deque hval) :
  history_init !! k = Some d -> numeric d.
Proof.
  unfold history_init. rewrite lookup_fmap.
  destruct (declared_capacity !! k); [| discriminate].
  intros [= <-]. constructor.
Qed.



(** ** States reached from a fresh start *)

Lemma tick_smoothing_numeric (w : Tick) :
  preserves smoothing_numeric (tick w).
Proof.
  apply preserves_tick; try (intros; assumption).
  - intros k' d x s Hk' _ Hs k d' Hk. cbn [history set_history].
    rewrite lookup_insert_ne by (apply (smoothing_not_record k k' Hk Hk')).
    apply Hs, Hk.
  - intros k0 d z s Hk0 Hd Hs k d' Hk. cbn [history set_history].
    destruct (decide (k0 = k)) as [-> | Hne].
    + rewrite lookup_insert_eq. intros [= <-].
      apply dq_append_numeric, (Hs k d Hk Hd).
    + rewrite lookup_insert_ne by exact Hne. apply Hs, Hk.
Qed.

(** Without a history file, every state [run] reaches meets the two
    preconditions of the smoothing theorem. *)
Lemma run_fresh_state (now0 : Z) (ticks : list Tick) :
  let s := (run now0 ticks (state_init None)).2 in
  buffers_ok (history s) /\ smoothing_numeric s.
Proof.
  cbv zeta. split.
  - apply (run_buffers_ok now0 ticks (state_init None)), history_init_ok.
  - unfold run.
    rewrite (bind_ok load_history _ (state_init None) (state_init None) tt
               eq_refl).
    apply preserves_after.
    + intros k d _. apply history_init_numeric.
    + intros _. apply preserves_bind;
        [apply preserves_modify; intros; assumption | intros _].
      apply preserves_for_each. apply tick_smoothing_numeric.
Qed.

(** ** Errors inside an iteration *)

(** An exception raised by the change computation is reported and the
    iteration ends with nothing else changed. *)
Lemma tick_reports_error (w : Tick) (s : State) (e : exn) :
  compute_changes (previous s) (t_data w) = Raise e ->
  tick w s = (Ok tt, set_sent (sent s ++ [MsgError e]) s).
Proof.
  intros Hch. unfold tick, try_except, tick_body.
  rewrite (bind_ok get _ s s s eq_refl). cbv beta. rewrite Hch.
  rewrite (bind_raise (lift (Raise e)) _ s s e eq_refl). reflexivity.
Qed.

(** On a snapshot built by [fetch_market_data] with a positive UVXY
    price, an iteration never takes the spike branch. *)
Lemma fetched_tick_is_scored (get_price : string -> Q) (w : Tick)
    (s : State) (changes : Changes) :
  (0 < get_price "UVXY")%Q ->
  t_data w = fetch_market_data get_price ->
  compute_changes (previous s) (t_data w) = Ok changes ->
  tick_body w s = scored_tick w changes s.
Proof.
  intros Hpos Hdata Hch. rewrite (tick_body_changes w s changes Hch).
  rewrite Hdata. unfold fake_spike, fetch_market_data. cbn [vx1 vx2 vx3].
  rewrite (Qltb_scaled_up _ Hpos), !andb_false_r. reflexivity.
Qed.

(** * Further properties *)

(** ** Early warning *)

(** X1. The early-warning alert fires exactly when the spread lies in
    the band -0.5 < spread <= -0.25: the lower bound is excluded, the
    upper bound included, and nothing else (regime, previous state)
    enters the test. *)
Lemma should_early_warning_alert_band (changes : Changes) :
  should_early_warning_alert changes = true
  <-> (- (1 # 2) < spread changes)%Q /\ (spread changes <= - (1 # 4))%Q.
Proof.
  unfold should_early_warning_alert, EARLY_WARNING_THRESHOLD.
  rewrite andb_true_iff, Qle_bool_iff, Qltb_lt.
  destruct (spread changes) as [n d]. unfold Qle, Qlt. cbn. lia.
Qed.

(** ** Strength: order and saturation *)

Lemma Qfloor_ge_iff (z : Z) (x : Q) :
  z <= Qfloor x <-> (inject_Z z <= x)%Q.
Proof.
  split.
  - intros Hz. apply Qle_trans with (inject_Z (Qfloor x)); [| apply Qfloor_le].
    rewrite <- Zle_Qle. exact Hz.
  - intros Hz. apply Qfloor_resp_le in Hz. rewrite Qfloor_Z in Hz. exact Hz.
Qed.

Lemma floored_strength_mono (u v : Q) :
  (u <= v)%Q -> floored_strength u <= floored_strength v.
Proof.
  intros Huv. unfold floored_strength, clamp.
  assert (Hfl : Qfloor (u * 5 + 50) <= Qfloor (v * 5 + 50)).
  { apply Qfloor_resp_le. apply Qplus_le_compat; [| apply Qle_refl].
    apply Qmult_le_compat_r; [exact Huv | discriminate]. }
  lia.
Qed.

(** X2. signal_strength is monotone: with ideal_positive=True a larger
    value never gives a smaller strength, and with
    ideal_positive=False a larger value never gives a larger strength. *)
Theorem signal_strength_monotone (u v : Q) :
  (u <= v)%Q ->
  signal_strength u true <= signal_strength v true
  /\ signal_strength v false <= signal_strength u false.
Proof.
  intros Huv. rewrite !signal_strength_floor. split.
  - apply floored_strength_mono, Huv.
  - apply floored_strength_mono.
    apply Qplus_le_compat; [apply Qle_refl | apply Qopp_le_compat, Huv].
Qed.

Lemma signal_strength_monotone_witness :
  signal_strength (1 # 2) true <= signal_strength 3 true
  /\ signal_strength 3 false <= signal_strength (1 # 2) false.
Proof. apply signal_strength_monotone. discriminate. Defined.


(** ** Heat-map symbols and bars *)

Theorem heatmap_symbol_bands (score : Z) :
  (heatmap_symbol score = SymOk <-> 70 < score)
  /\ (heatmap_symbol score = SymWarn <-> 40 < score <= 70)
  /\ (heatmap_symbol score = SymBad <-> score <= 40).
Proof.
  unfold heatmap_symbol.
  destruct (Z.ltb_spec 70 score); [repeat split; intros; (discriminate || lia) |].
  destruct (Z.ltb_spec 40 score); repeat split; intros; (discriminate || lia).
Qed.

Lemma Qtrunc_tenth (z : Z) : 0 <= z -> Qtrunc (inject_Z z / 10) = z / 10.
Proof.
  intros Hz. unfold Qtrunc, Qdiv, Qmult, Qinv, inject_Z. cbn [Qnum Qden].
  rewrite Z.mul_1_r. apply Z.quot_div_nonneg; lia.
Qed.

(** X5. A strength between 0 and 100 is drawn as a bar of ten cells, one
    filled cell for every full ten points. *)
Theorem bar_visual_ten_cells (z : Z) :
  0 <= z <= 100 ->
  exists filled empty : nat,
    bar_visual (HInt z) = Ok (filled, empty)
    /\ (filled + empty = 10)%nat
    /\ Z.of_nat filled = z / 10.
Proof.
  intros Hz. unfold bar_visual, HInt. rewrite (Qtrunc_tenth z) by lia.
  assert (0 <= z / 10 <= 10).
  { split; [apply Z.div_pos; lia | apply Z.div_le_upper_bound; lia]. }
  eexists _, _. split; [reflexivity |]. split; lia.
Qed.

Lemma bar_visual_ten_cells_witness :
  exists filled empty : nat,
    bar_visual (HInt 55) = Ok (filled, empty)
    /\ (filled + empty = 10)%nat
    /\ Z.of_nat filled = 55 / 10.
Proof. apply bar_visual_ten_cells. lia. Defined.


(** ** Trend arrows *)

(** X7. On a buffer of numbers the arrow compares the newest entry with the
    oldest; an empty buffer raises [IndexError]. *)
Theorem trend_arrow_numeric (seq : deque hval) (first newest : Q) :
  head (dq_items seq) = Some (HNum first) ->
  last (dq_items seq) = Some (HNum newest) ->
  ((first < newest)%Q -> trend_arrow seq = Ok ArrowUp)
  /\ ((newest < first)%Q -> trend_arrow seq = Ok ArrowDown)
  /\ ((newest == first)%Q -> trend_arrow seq = Ok ArrowFlat).
Proof.
  intros Hfirst Hlast.
  assert (Harrow : trend_arrow seq
                   = Ok (if Qltb first newest then ArrowUp
                         else if Qltb newest first then ArrowDown
                         else ArrowFlat)).
  { unfold trend_arrow, dq_last, dq_first. rewrite Hlast.
    destruct (dq_items seq) as [| x l]; [discriminate |].
    injection Hfirst as ->. cbn.
    destruct (Qltb first newest); [reflexivity |].
    destruct (Qltb newest first); reflexivity. }
  rewrite Harrow. repeat split.
  - intros H. apply Qltb_lt in H. rewrite H. reflexivity.
  - intros H. assert (Hn : Qltb first newest = false).
    { apply Qltb_nlt. intros H'. apply (Qlt_irrefl first).
      apply Qlt_trans with newest; assumption. }
    apply Qltb_lt in H. rewrite Hn, H. reflexivity.
  - intros H.
    assert (Hn : Qltb first newest = false).
    { apply Qltb_nlt. rewrite H. apply Qlt_irrefl. }
    assert (Hn' : Qltb newest first = false).
    { apply Qltb_nlt. rewrite H. apply Qlt_irrefl. }
    rewrite Hn, Hn'. reflexivity.
Qed.

Lemma trend_arrow_numeric_witness :
  trend_arrow (Deque [HInt 40; HInt 55; HInt 60] 7) = Ok ArrowUp.
Proof.
  apply (trend_arrow_numeric (Deque [HInt 40; HInt 55; HInt 60] 7) 40 60);
    reflexivity.
Defined.

Theorem trend_arrow_empty (n : nat) :
  trend_arrow (Deque [] n) = Raise IndexError.
Proof. reflexivity. Qed.

(** ** Appending to a buffer *)

(** X8. With room for at least one element the appended element is the
    newest of the buffer; a buffer of capacity 0 stays empty. *)
Theorem dq_append_newest {A} (d : deque A) (x : A) :
  bounded d ->
  (if decide (dq_maxlen d = 0%nat)
   then dq_items (dq_append d x) = []
   else last (dq_items (dq_append d x)) = Some x)
  /\ length (dq_items (dq_append d x))
     = Nat.min (dq_maxlen d) (S (length (dq_items d))).
Proof.
  intros Hd. rewrite (dq_append_items d x Hd). unfold bounded in Hd. split.
  - destruct (decide (dq_maxlen d = 0%nat)) as [H0 | Hpos].
    + apply length_zero_iff_nil. rewrite length_lastn. lia.
    + unfold lastn. rewrite length_app. cbn [length].
      rewrite drop_app_le by lia. apply last_snoc.
  - rewrite length_lastn, length_app. cbn [length]. lia.
Qed.

Lemma dq_append_newest_witness :
  last (dq_items (dq_append (Deque [HInt 1; HInt 2; HInt 3] 3) (HInt 4)))
  = Some (HInt 4)
  /\ length (dq_items (dq_append (Deque [HInt 1; HInt 2; HInt 3] 3) (HInt 4)))
     = 3%nat.
Proof.
  apply (dq_append_newest (Deque [HInt 1; HInt 2; HInt 3] 3) (HInt 4)).
  unfold bounded. cbn. lia.
Defined.

(** ** Persistence *)

Lemma deque_eq {A} (d1 d2 : deque A) :
  dq_items d1 = dq_items d2 -> dq_maxlen d1 = dq_maxlen d2 -> d1 = d2.
Proof. destruct d1, d2. cbn. intros -> ->. reflexivity. Qed.

Lemma dq_new_items {A} (xs : list A) (n : nat) :
  dq_items (dq_new xs n) = lastn n xs.
Proof.
  unfold dq_new. rewrite foldl_append_items by (unfold bounded; cbn; lia).
  reflexivity.
Qed.

(** Rebuilding a buffer from its own content gives the buffer back. *)
Lemma dq_new_id {A} (d : deque A) :
  bounded d -> dq_new (dq_items d) (dq_maxlen d) = d.
Proof.
  intros Hd. apply deque_eq.
  - rewrite dq_new_items. apply lastn_all, Hd.
  - apply dq_new_maxlen.
Qed.

Lemma set_history_id (s : State) : set_history (history s) s = s.
Proof. destruct s. reflexivity. Qed.

Lemma set_history_twice (h h' : gmap string (deque hval)) (s : State) :
  set_history h' (set_history h s) = set_history h' s.
Proof. reflexivity. Qed.

(** The loop of [load_history] over a file whose keys are all known. *)
Lemma load_loop_known (data : list (string * list hval)) (s : State) :
  NoDup data.*1 ->
  (forall k, k ∈ data.*1 -> is_Some (history s !! k)) ->
  for_each data (fun '(k, xs) =>
    d ← hist_get k;
    modify (fun s => set_history (<[k := dq_new xs (dq_maxlen d)]> (history s)) s)) s
  = (Ok tt,
     set_history
       (map_imap (fun k d =>
          Some (reloaded ((list_to_map data : gmap string (list hval)) !! k) d))
          (history s)) s).
Proof.
  revert s. induction data as [| [k xs] data IH]; intros s Hnodup Hknown.
  - cbn [for_each list_to_map foldr]. f_equal.
    rewrite <- (set_history_id s) at 1. f_equal.
    apply map_eq. intros j. rewrite map_lookup_imap, lookup_empty.
    destruct (history s !! j); reflexivity.
  - cbn [fmap list_fmap fst] in Hnodup, Hknown.
    apply NoDup_cons in Hnodup as [Hk Hnodup].
    destruct (Hknown k) as [d Hd]; [apply elem_of_cons; left; reflexivity |].
    cbn [for_each].
    rewrite (bind_ok _ _ s
               (set_history (<[k := dq_new xs (dq_maxlen d)]> (history s)) s) tt).
    2:{ rewrite (bind_ok _ _ _ _ _ (hist_get_ok k s d Hd)). reflexivity. }
    rewrite IH; [| exact Hnodup |].
    2:{ intros j Hj. cbn [history set_history].
        destruct (decide (k = j)) as [-> | Hne].
        - rewrite lookup_insert_eq. eexists. reflexivity.
        - rewrite lookup_insert_ne by exact Hne.
          apply Hknown, elem_of_cons. right. exact Hj. }
    cbn [history set_history]. rewrite set_history_twice. f_equal. f_equal.
    apply map_eq. intros j. rewrite !map_lookup_imap.
    cbn [list_to_map foldr uncurry].
    destruct (decide (k = j)) as [-> | Hne].
    + rewrite !lookup_insert_eq, Hd. cbn.
      rewrite (not_elem_of_list_to_map_1 data j Hk). reflexivity.
    + rewrite !lookup_insert_ne by exact Hne. reflexivity.
Qed.

(** X9. A file whose keys are all keys of [history] is loaded without
    error: each listed buffer is replaced by the last [maxlen] entries
    of its list, at the capacity the key had, every other buffer and
    the rest of the state are left alone. *)
Theorem load_history_known_keys (s : State) (data : list (string * list hval)) :
  history_file s = Some data ->
  NoDup data.*1 ->
  (forall k, k ∈ data.*1 -> is_Some (history s !! k)) ->
  exists h',
    load_history s = (Ok tt, set_history h' s)
    /\ (forall k xs d, (k, xs) ∈ data -> history s !! k = Some d ->
          h' !! k = Some (Deque (lastn (dq_maxlen d) xs) (dq_maxlen d)))
    /\ (forall k, k ∉ data.*1 -> h' !! k = history s !! k).
Proof.
  intros Hfile Hnodup Hknown. eexists. split; [| split].
  - unfold load_history. rewrite (bind_ok get _ s s s eq_refl). cbv beta.
    rewrite Hfile. apply load_loop_known; assumption.
  - intros k xs d Hin Hd. rewrite map_lookup_imap, Hd. cbn.
    rewrite (elem_of_list_to_map_1 data k xs Hnodup Hin). cbn [reloaded].
    f_equal. apply deque_eq; cbn [dq_items dq_maxlen].
    + apply dq_new_items.
    + apply dq_new_maxlen.
  - intros k Hk. rewrite map_lookup_imap.
    rewrite (not_elem_of_list_to_map_1 data k Hk).
    destruct (history s !! k); reflexivity.
Qed.

Lemma load_history_known_keys_witness :
  history
    (load_history
       (state_init (Some [("vix_trend",
                           [HInt 1; HInt 2; HInt 3; HInt 4; HInt 5; HInt 6])]))).2
  !! "vix_trend"
  = Some (Deque [HInt 2; HInt 3; HInt 4; HInt 5; HInt 6] 5).
Proof.
  destruct (load_history_known_keys
              (state_init (Some [("vix_trend",
                                  [HInt 1; HInt 2; HInt 3; HInt 4; HInt 5; HInt 6])]))
              [("vix_trend", [HInt 1; HInt 2; HInt 3; HInt 4; HInt 5; HInt 6])]
              eq_refl)
    as (h' & Hload & Hlisted & _).
  - repeat constructor. apply not_elem_of_nil.
  - intros k Hk. apply list_elem_of_singleton in Hk as ->. eexists. reflexivity.
  - rewrite Hload. cbn [snd history set_history].
    refine (Hlisted "vix_trend"
              [HInt 1; HInt 2; HInt 3; HInt 4; HInt 5; HInt 6]
              (Deque [] 5) _ eq_refl).
    apply list_elem_of_singleton. reflexivity.
Defined.

(** The loop of [load_history] stops at the first key that [history]
    does not have; nothing but [history] has changed by then. *)
Lemma load_loop_unknown (data : list (string * list hval)) (s : State) :
  (exists k, k ∈ data.*1 /\ history s !! k = None) ->
  exists h',
    for_each data (fun '(k, xs) =>
      d ← hist_get k;
      modify (fun s => set_history (<[k := dq_new xs (dq_maxlen d)]> (history s)) s)) s
    = (Raise KeyError, set_history h' s).
Proof.
  revert s. induction data as [| [k xs] data IH]; intros s (j & Hj & Hnone).
  - cbn in Hj. apply elem_of_nil in Hj. contradiction.
  - cbn [for_each]. destruct (history s !! k) as [d |] eqn:Hd.
    + rewrite (bind_ok _ _ s
                 (set_history (<[k := dq_new xs (dq_maxlen d)]> (history s)) s) tt).
      2:{ rewrite (bind_ok _ _ _ _ _ (hist_get_ok k s d Hd)). reflexivity. }
      destruct (IH (set_history (<[k := dq_new xs (dq_maxlen d)]> (history s)) s))
        as [h' Hh'].
      * exists j. cbn [fmap list_fmap fst] in Hj.
        apply elem_of_cons in Hj as [-> | Hj]; [congruence |].
        split; [exact Hj |]. cbn [history set_history].
        rewrite lookup_insert_ne by congruence. exact Hnone.
      * exists h'. rewrite Hh'. reflexivity.
    + exists (history s). rewrite set_history_id.
      apply bind_raise. apply bind_raise.
      unfold hist_get, mbind, M_bind, get. rewrite Hd. reflexivity.
Qed.

(** X10. A history file with a key that [history] does not have stops [run]
    at start-up with [KeyError]: no message is sent, not even the start
    message, and no tick is processed. *)
Theorem run_unknown_key (now0 : Z) (ticks : list Tick) (s : State)
    (data : list (string * list hval)) :
  history_file s = Some data ->
  (exists k, k ∈ data.*1 /\ history s !! k = None) ->
  exists h',
    run now0 ticks s = (Raise KeyError, set_history h' s).
Proof.
  intros Hfile Hunknown.
  destruct (load_loop_unknown data s Hunknown) as [h' Hh'].
  exists h'. unfold run. apply bind_raise.
  unfold load_history. rewrite (bind_ok get _ s s s eq_refl). cbv beta.
  rewrite Hfile. exact Hh'.
Qed.

Lemma run_unknown_key_witness :
  let w := {| t_data := {| vix := 20; vvix := 100; spx := 5000;
                           vx1 := 30; vx2 := 31; vx3 := 32 |};
              t_now := 1000; t_today := "11-04" |} in
  exists h',
    run 0 [w] (state_init (Some [("vix_trend", [HInt 1]); ("vix_month", [])]))
    = (Raise KeyError,
       set_history h'
         (state_init (Some [("vix_trend", [HInt 1]); ("vix_month", [])]))).
Proof.
  intros w.
  apply (run_unknown_key 0 [w]
           (state_init (Some [("vix_trend", [HInt 1]); ("vix_month", [])]))
           [("vix_trend", [HInt 1]); ("vix_month", [])] eq_refl).
  exists "vix_month". split; [| reflexivity].
  apply elem_of_cons. right. apply elem_of_cons. left. reflexivity.
Defined.

Lemma saved_keys_known (h : gmap string (deque hval)) (k : string) :
  dq_maxlen <$> h = declared_capacity ->
  k ∈ (map_to_list (dq_items <$> h)).*1 ->
  is_Some (history_init !! k).
Proof.
  intros Hcap Hk. apply list_elem_of_fmap in Hk as ([k' xs] & -> & Hin).
  apply elem_of_map_to_list in Hin. cbn [fst].
  rewrite lookup_fmap in Hin.
  destruct (h !! k') as [d |] eqn:Hd; [| discriminate].
  unfold history_init.
  rewrite lookup_fmap, <- Hcap, lookup_fmap, Hd. eexists. reflexivity.
Qed.

(** X11. What [save_history] writes is read back by [load_history] after a
    restart as the same [history], whenever the buffers have their
    declared capacities and are within them. *)
Theorem save_then_load_restores (s : State) :
  buffers_ok (history s) ->
  load_history (state_init (history_file (save_history s).2))
  = (Ok tt,
     set_history (history s) (state_init (history_file (save_history s).2))).
Proof.
  intros [Hcap Hall].
  cbn [save_history modify snd history_file set_history_file].
  unfold load_history. rewrite (bind_ok get _ _ _ _ eq_refl). cbv beta.
  cbn [history_file state_init].
  rewrite load_loop_known.
  - f_equal. f_equal. cbn [history state_init]. apply map_eq. intros k.
    rewrite map_lookup_imap.
    rewrite list_to_map_to_list, lookup_fmap. unfold history_init.
    rewrite lookup_fmap, <- Hcap, lookup_fmap.
    destruct (history s !! k) as [d |] eqn:Hd; [| reflexivity].
    cbn. f_equal. apply dq_new_id. exact (Hall k d Hd).
  - apply NoDup_fst_map_to_list.
  - intros k Hk. cbn [history state_init].
    apply (saved_keys_known (history s)); assumption.
Qed.

Lemma save_then_load_restores_witness :
  let s := set_history
             (<["vix_trend" := Deque [HInt 40; HInt 60] 5]> history_init)
             (state_init None) in
  history (load_history (state_init (history_file (save_history s).2))).2
  = history s.
Proof.
  intros s. rewrite (save_then_load_restores s); [reflexivity |].
  apply (buffers_ok_insert history_init "vix_trend" (Deque [] 5));
    [reflexivity | reflexivity | unfold bounded; cbn; lia | apply history_init_ok].
Defined.

(** ** Outcomes of a computation *)

Lemma triple_bind {A B} (P : State -> Prop) (m : M A) (f : A -> M B)
    (R : A -> State -> Prop) (Q : B -> State -> Prop)
    (E : exn -> State -> Prop) :
  triple P m R E -> (forall a, triple (R a) (f a) Q E) ->
  triple P (m ≫= f) Q E.
Proof.
  intros Hm Hf s Hs. specialize (Hm s Hs). unfold mbind, M_bind.
  destruct (m s) as [[a | e] s']; [apply Hf, Hm | exact Hm].
Qed.

Lemma triple_of_preserves {A} (I : State -> Prop) (m : M A) :
  preserves I m -> triple I m (fun _ => I) (fun _ => I).
Proof.
  intros Hm s Hs. specialize (Hm s Hs).
  destruct (m s) as [[a | e] s']; exact Hm.
Qed.

Lemma triple_if {A} (P : State -> Prop) (b : bool) (m1 m2 : M A)
    (Q : A -> State -> Prop) (E : exn -> State -> Prop) :
  triple P m1 Q E -> triple P m2 Q E -> triple P (if b then m1 else m2) Q E.
Proof. destruct b; intros; assumption. Qed.

Lemma triple_ret {A} (P : State -> Prop) (a : A)
    (Q : A -> State -> Prop) (E : exn -> State -> Prop) :
  (forall s, P s -> Q a s) -> triple P (mret a) Q E.
Proof. intros HQ s Hs. apply HQ, Hs. Qed.

Lemma triple_modify (P : State -> Prop) (f : State -> State)
    (Q : unit -> State -> Prop) (E : exn -> State -> Prop) :
  (forall s, P s -> Q tt (f s)) -> triple P (modify f) Q E.
Proof. intros HQ s Hs. apply HQ, Hs. Qed.

(** ** Weekly dashboard *)

(** X12. The dashboard only reads: it ends in the state it started from,
    with one dashboard message appended when it returns after building
    one.  With fewer than two weekly records it returns at once. *)
Theorem send_weekly_dashboard_reads (s : State) :
  match send_weekly_dashboard s with
  | (Ok _, s') =>
      s' = s \/ exists d, s' = set_sent (sent s ++ [MsgDashboard d]) s
  | (Raise _, s') => s' = s
  end.
Proof.
  set (P := fun s' : State => s' = s).
  assert (Hdash : triple P send_weekly_dashboard
            (fun _ s' =>
               s' = s \/ exists d, s' = set_sent (sent s ++ [MsgDashboard d]) s)
            (fun _ s' => s' = s));
    [| exact (Hdash s eq_refl)].
  unfold send_weekly_dashboard.
  eapply triple_bind;
    [apply triple_of_preserves, preserves_hist_get | intros d].
  apply triple_if; [apply triple_ret; intros s' ->; left; reflexivity |].
  repeat (eapply triple_bind;
          [apply triple_of_preserves;
           first [ apply preserves_average | apply preserves_hist_get
                 | apply preserves_week_arrow | apply preserves_get
                 | apply preserves_collect; intros ?;
                   apply preserves_dashboard_row ]
          | intros ?]).
  apply triple_modify. intros s' ->. right. eexists. reflexivity.
Qed.

(** X13. With fewer than two records under vix_week,
    send_weekly_dashboard returns at once: nothing is sent and nothing
    changes. *)
Theorem send_weekly_dashboard_too_few (s : State) (d : deque hval) :
  history s !! "vix_week" = Some d ->
  (length (dq_items d) < 2)%nat ->
  send_weekly_dashboard s = (Ok tt, s).
Proof.
  intros Hd Hlen. unfold send_weekly_dashboard.
  rewrite (bind_ok _ _ _ _ _ (hist_get_ok _ s d Hd)).
  destruct (Nat.ltb_spec (length (dq_items d)) 2); [reflexivity | lia].
Qed.

Lemma send_weekly_dashboard_too_few_witness :
  send_weekly_dashboard (state_init None) = (Ok tt, state_init None).
Proof.
  apply (send_weekly_dashboard_too_few (state_init None) (Deque [] 7));
    [reflexivity | cbn; lia].
Defined.

(** ** Smoothing: errors and range *)

Lemma py_sum_from_string (xs : list hval) (acc : Q) :
  (exists str, HStr str ∈ xs) -> py_sum_from acc xs = Raise TypeError.
Proof.
  revert acc. induction xs as [| x xs IH]; intros acc [str Hstr].
  - apply elem_of_nil in Hstr. contradiction.
  - destruct x as [q | str']; cbn [py_sum_from]; [| reflexivity].
    apply IH. apply elem_of_cons in Hstr as [Heq | Hin]; [discriminate |].
    exists str. exact Hin.
Qed.

(** X14. Without the key, [smoothed_strength] raises [KeyError] and changes
    nothing. *)
Theorem smoothed_strength_missing_key (name : string) (z : Z) (s : State) :
  history s !! name = None ->
  smoothed_strength name z s = (Raise KeyError, s).
Proof.
  intros Hnone. unfold smoothed_strength, hist_append.
  apply bind_raise, bind_raise.
  unfold hist_get, mbind, M_bind, get. rewrite Hnone. reflexivity.
Qed.

Lemma smoothed_strength_missing_key_witness :
  smoothed_strength "vix_smooth" 50 (state_init None)
  = (Raise KeyError, state_init None).
Proof. apply smoothed_strength_missing_key. reflexivity. Defined.

(** X15. With a string in the buffer, [smoothed_strength] raises [TypeError]
    from the sum, after the append: the new strength stays in the
    buffer. *)
Theorem smoothed_strength_string_entry (name : string) (z : Z) (s : State)
    (d : deque hval) :
  history s !! name = Some d ->
  (exists str, HStr str ∈ dq_items (dq_append d (HInt z))) ->
  smoothed_strength name z s
  = (Raise TypeError,
     set_history (<[name := dq_append d (HInt z)]> (history s)) s).
Proof.
  intros Hd Hstr. unfold smoothed_strength.
  rewrite (bind_ok _ _ _ _ _ (hist_append_ok name (HInt z) s d Hd)).
  apply bind_raise. unfold average.
  erewrite bind_ok;
    [| apply hist_get_ok; cbn [history set_history]; apply lookup_insert_eq].
  apply bind_raise. unfold lift, py_sum.
  rewrite (py_sum_from_string _ _ Hstr). reflexivity.
Qed.

Lemma smoothed_strength_string_entry_witness :
  let s := set_history (<["vix_strength" := Deque [HStr "n/a"] 3]> history_init)
                       (state_init None) in
  smoothed_strength "vix_strength" 50 s
  = (Raise TypeError,
     set_history
       (<["vix_strength" := Deque [HStr "n/a"; HInt 50] 3]> (history s)) s).
Proof.
  intros s.
  apply (smoothed_strength_string_entry "vix_strength" 50 s
           (Deque [HStr "n/a"] 3)); [reflexivity |].
  exists "n/a". apply elem_of_cons. left. reflexivity.
Defined.

Lemma py_sum_from_bounds (xs : list hval) (acc : Q) :
  Forall strength_entry xs ->
  exists total,
    py_sum_from acc xs = Ok total
    /\ (acc <= total)%Q
    /\ (total <= acc + 100 * inject_Z (Z.of_nat (length xs)))%Q.
Proof.
  intros Hxs. revert acc.
  induction Hxs as [| x xs (z & -> & Hz) _ IH]; intros acc.
  - exists acc. cbn. split; [reflexivity |]. split; [apply Qle_refl |].
    rewrite Qmult_0_r, Qplus_0_r. apply Qle_refl.
  - cbn [py_sum_from HInt length].
    destruct (IH (acc + inject_Z z)%Q) as (total & Hsum & Hlo & Hhi).
    exists total. split; [exact Hsum |].
    assert (Hz0 : (inject_Z 0 <= inject_Z z)%Q) by (rewrite <- Zle_Qle; lia).
    assert (Hz1 : (inject_Z z <= inject_Z 100)%Q) by (rewrite <- Zle_Qle; lia).
    rewrite Nat2Z.inj_succ. unfold Z.succ. rewrite inject_Z_plus.
    change (inject_Z 0) with 0%Q in Hz0.
    change (inject_Z 100) with 100%Q in Hz1.
    change (inject_Z 1) with 1%Q.
    split; lra.
Qed.

Lemma Qtrunc_range (x : Q) :
  (0 <= x)%Q -> (x <= 100)%Q -> 0 <= Qtrunc x <= 100.
Proof.
  intros H0 H100.
  assert (Hfl : Qtrunc x = Qfloor x).
  { destruct x as [n d]. unfold Qtrunc, Qfloor. cbn [Qnum Qden].
    apply Z.quot_div_nonneg; [| lia]. unfold Qle in H0. cbn in H0. lia. }
  rewrite Hfl. split.
  - apply (Qfloor_resp_le 0 x) in H0. exact H0.
  - apply (Qfloor_resp_le x 100) in H100. exact H100.
Qed.

Lemma dq_append_entries (d : deque hval) (z : Z) :
  Forall strength_entry (dq_items d) ->
  0 <= z <= 100 ->
  Forall strength_entry (dq_items (dq_append d (HInt z))).
Proof.
  unfold dq_append. cbn [dq_items]. intros Hd Hz.
  assert (Hall : Forall strength_entry (dq_items d ++ [HInt z])).
  { apply Forall_app. split; [exact Hd |].
    constructor; [| constructor]. exists z. split; [reflexivity | exact Hz]. }
  destruct (dq_maxlen d <? length (dq_items d ++ [HInt z]))%nat;
    [apply Forall_drop |]; exact Hall.
Qed.

(** X16. On a buffer of strengths between 0 and 100 with room for at least
    one element, [smoothed_strength] returns a mean between 0 and 100. *)
Theorem smoothed_strength_range (name : string) (z : Z) (s : State)
    (d : deque hval) :
  history s !! name = Some d ->
  Forall strength_entry (dq_items d) ->
  (0 < dq_maxlen d)%nat ->
  0 <= z <= 100 ->
  exists mean,
    smoothed_strength name z s
    = (Ok mean,
       set_history (<[name := dq_append d (HInt z)]> (history s)) s)
    /\ 0 <= mean <= 100.
Proof.
  intros Hd Hentries Hmax Hz. unfold smoothed_strength.
  rewrite (bind_ok _ _ _ _ _ (hist_append_ok name (HInt z) s d Hd)).
  set (d' := dq_append d (HInt z)).
  set (s' := set_history (<[name := d']> (history s)) s).
  assert (Hd' : history s' !! name = Some d') by apply lookup_insert_eq.
  destruct (py_sum_from_bounds (dq_items d') 0%Q
              (dq_append_entries d z Hentries Hz)) as (total & Hsum & Hlo & Hhi).
  assert (Hlen : (0 < length (dq_items d'))%nat)
    by (apply dq_append_nonempty, Hmax).
  set (n := inject_Z (Z.of_nat (length (dq_items d')))) in *.
  assert (Hn : (0 < n)%Q).
  { unfold n. change 0%Q with (inject_Z 0). rewrite <- Zlt_Qlt. lia. }
  exists (Qtrunc (total / n)). split.
  - assert (Havg : average name s' = (Ok (total / n)%Q, s')).
    { unfold average.
      rewrite (bind_ok _ _ _ _ _ (hist_get_ok name s' d' Hd')).
      unfold py_sum. rewrite Hsum.
      rewrite (bind_ok (lift (Ok total)) _ s' s' total eq_refl).
      rewrite (bind_ok _ _ _ _ _ (hist_get_ok name s' d' Hd')).
      rewrite (div_by_length _ _ Hlen). reflexivity. }
    rewrite (bind_ok _ _ _ _ _ Havg). reflexivity.
  - apply Qtrunc_range.
    + apply Qle_shift_div_l; [exact Hn |]. rewrite Qmult_0_l. exact Hlo.
    + apply Qle_shift_div_r; [exact Hn |]. rewrite Qplus_0_l in Hhi. exact Hhi.
Qed.

Lemma smoothed_strength_range_witness :
  let s := set_history (<["vix_strength" := Deque [HInt 40; HInt 70] 3]> history_init)
                       (state_init None) in
  exists mean,
    smoothed_strength "vix_strength" 55 s
    = (Ok mean,
       set_history
         (<["vix_strength" := Deque [HInt 40; HInt 70; HInt 55] 3]> (history s)) s)
    /\ 0 <= mean <= 100.
Proof.
  intros s.
  apply (smoothed_strength_range "vix_strength" 55 s (Deque [HInt 40; HInt 70] 3));
    [reflexivity | | cbn; lia | lia].
  repeat constructor; eexists; (split; [reflexivity | lia]).
Defined.

(** ** The update of [previous] *)

Lemma scored_tick_previous (w : Tick) (changes : Changes) (s : State) :
  triple (fun s' => previous s' = previous s)
    (scored_tick w changes)
    (fun _ s' => previous s' = new_previous w changes)
    (fun _ s' => previous s' = previous s).
Proof.
  unfold scored_tick.
  eapply triple_bind.
  { apply triple_of_preserves, preserves_if;
      [apply preserves_send_telegram; intros l s' Hs'; exact Hs'
      | apply preserves_ret]. }
  intros ?. eapply triple_bind; [apply triple_of_preserves, preserves_get |].
  intros s1. eapply triple_bind.
  { apply triple_of_preserves, preserves_if;
      [apply preserves_phase_alert; intros; assumption | apply preserves_ret]. }
  intros ?. eapply triple_bind; [apply triple_of_preserves, preserves_get |].
  intros s2. eapply triple_bind.
  { apply triple_of_preserves, preserves_if; [| apply preserves_ret].
    apply preserves_bind;
      [apply preserves_send_weekly_dashboard; intros l s' Hs'; exact Hs' |].
    intros _. apply preserves_modify. intros s' Hs'. exact Hs'. }
  intros ?. apply triple_modify. intros s' _. reflexivity.
Qed.

(** X17. A scored iteration that completes stores the current snapshot, the
    spread and the new regime in [previous]; one that raises leaves
    [previous] as it was and reports the exception.  Either way [tick]
    itself returns. *)
Theorem iteration_updates_previous (w : Tick) (s : State) (changes : Changes) :
  compute_changes (previous s) (t_data w) = Ok changes ->
  fake_spike (t_data w) changes = false ->
  match tick_body w s with
  | (Ok _, s') =>
      previous s' = new_previous w changes /\ tick w s = (Ok tt, s')
  | (Raise e, s') =>
      previous s' = previous s
      /\ tick w s = (Ok tt, set_sent (sent s' ++ [MsgError e]) s')
  end.
Proof.
  intros Hch Hspike. unfold tick, try_except.
  rewrite (tick_body_changes w s changes Hch), Hspike.
  pose proof (scored_tick_previous w changes s s eq_refl) as Hprev.
  destruct (scored_tick w changes s) as [[[] | e] s'];
    (split; [exact Hprev | reflexivity]).
Qed.

Lemma iteration_updates_previous_witness :
  let w := {| t_data := {| vix := 20; vvix := 100; spx := 5000;
                           vx1 := 30; vx2 := 31; vx3 := 31 * (101 # 100) |};
              t_now := 1000; t_today := "11-04" |} in
  p_regime (previous (tick w (state_init None)).2) = Some TRANSITION
  /\ p_vix (previous (tick w (state_init None)).2) = Some 20%Q.
Proof.
  intros w.
  pose proof (iteration_updates_previous w (state_init None)
                {| vix_change := 0; vvix_change := 0; spx_change := 0;
                   spread := 30 - 31; spread_trending_down := false |}
                eq_refl eq_refl) as H.
  destruct (tick_body w (state_init None)) as [[[] | e] s'] eqn:Hbody.
  - destruct H as [Hprev Htick]. rewrite Htick. cbn [snd]. rewrite Hprev.
    split; reflexivity.
  - exfalso. vm_compute in Hbody. discriminate Hbody.
Defined.

(** X18. A scored iteration with no phase alert and no dashboard due changes
    [previous] and nothing else, and sends the early-warning message or
    nothing. *)
Theorem quiet_tick (w : Tick) (s : State) (changes : Changes) :
  compute_changes (previous s) (t_data w) = Ok changes ->
  fake_spike (t_data w) changes = false ->
  should_alert (classify (probability_score (t_data w) changes))
               (p_regime (previous s)) = false ->
  t_now w - last_weekly_alert s <= 24 * 3600 ->
  tick w s
  = (Ok tt,
     set_previous (new_previous w changes)
       (if should_early_warning_alert changes
        then set_sent (sent s ++ [MsgEarlyWarning (spread changes)]) s
        else s)).
Proof.
  intros Hch Hspike Hquiet Hclock. unfold tick, try_except.
  rewrite (tick_body_changes w s changes Hch), Hspike.
  apply Z.ltb_ge in Hclock.
  unfold scored_tick.
  destruct (should_early_warning_alert changes);
    unfold mbind, M_bind, send_telegram, modify, get, mret, M_ret;
    cbn [previous set_sent]; rewrite Hquiet;
    cbn [last_weekly_alert set_sent]; rewrite Hclock; reflexivity.
Qed.

Lemma quiet_tick_witness :
  let w := {| t_data := {| vix := 20; vvix := 100; spx := 5000;
                           vx1 := 30; vx2 := 30; vx3 := 30 * (101 # 100) |};
              t_now := 1000; t_today := "11-04" |} in
  let s := set_last_weekly_alert 900 (state_init None) in
  history (tick w s).2 = history s
  /\ sent (tick w s).2 = []
  /\ p_regime (previous (tick w s).2) = Some PANIC.
Proof.
  intros w s.
  rewrite (quiet_tick w s
             {| vix_change := 0; vvix_change := 0; spx_change := 0;
                spread := 30 - 30; spread_trending_down := false |}
             eq_refl eq_refl eq_refl); [| cbn; lia].
  repeat split.
Defined.

(** ** Edge triggering *)

(** X19. After a completed scored iteration, a scored iteration classified
    into the same regime records nothing: no buffer of [history]
    changes. *)
Theorem stable_regime_records_nothing (w1 w2 : Tick) (s : State)
    (changes1 changes2 : Changes) :
  compute_changes (previous s) (t_data w1) = Ok changes1 ->
  fake_spike (t_data w1) changes1 = false ->
  (tick_body w1 s).1 = Ok tt ->
  compute_changes (previous (tick w1 s).2) (t_data w2) = Ok changes2 ->
  fake_spike (t_data w2) changes2 = false ->
  classify (probability_score (t_data w2) changes2)
  = classify (probability_score (t_data w1) changes1) ->
  history (tick w2 (tick w1 s).2).2 = history (tick w1 s).2.
Proof.
  intros Hch1 Hspike1 Hok Hch2 Hspike2 Hsame.
  assert (Hprev : previous (tick w1 s).2 = new_previous w1 changes1).
  { unfold tick, try_except in *.
    rewrite (tick_body_changes w1 s changes1 Hch1), Hspike1 in *.
    pose proof (scored_tick_previous w1 changes1 s s eq_refl) as H.
    destruct (scored_tick w1 changes1 s) as [[[] | e] s'];
      [exact H | discriminate Hok]. }
  set (s1 := (tick w1 s).2) in *.
  set (I := fun s' : State => history s' = history s1).
  change (I (tick w2 s1).2). unfold tick at 1.
  apply preserves_try_after;
    [| intros e; apply preserves_send_telegram; intros l s' Hs'; exact Hs'].
  rewrite (tick_body_changes w2 s1 changes2 Hch2), Hspike2.
  apply scored_tick_quiet; try (intros ? s' Hs'; exact Hs'); [| reflexivity].
  rewrite Hprev, Hsame. cbn [p_regime new_previous].
  unfold should_alert. rewrite bool_decide_eq_true_2 by reflexivity.
  reflexivity.
Qed.

Lemma stable_regime_records_nothing_witness :
  let data := {| vix := 20; vvix := 100; spx := 5000;
                 vx1 := 30; vx2 := 31; vx3 := 31 * (101 # 100) |} in
  let w1 := {| t_data := data; t_now := 1000; t_today := "11-04" |} in
  let w2 := {| t_data := data; t_now := 1600; t_today := "11-04" |} in
  history (tick w2 (tick w1 (state_init None)).2).2
  = history (tick w1 (state_init None)).2.
Proof.
  intros data w1 w2.
  apply (stable_regime_records_nothing w1 w2 (state_init None)
           {| vix_change := 0; vvix_change := 0; spx_change := 0;
              spread := 30 - 31; spread_trending_down := false |}
           {| vix_change := (20 - 20) / 20 * 100;
              vvix_change := (100 - 100) / 100 * 100;
              spx_change := (5000 - 5000) / 5000 * 100;
              spread := 30 - 31; spread_trending_down := false |});
    reflexivity.
Defined.

(** ** Scores and regimes *)

(** X20. On the first tick at most 45 points can be scored, so the regime is
    PANIC or TRANSITION. *)
Theorem first_tick_regime (data : MarketSnapshot) (changes : Changes) :
  compute_changes previous_init data = Ok changes ->
  probability_score data changes <= 45
  /\ (classify (probability_score data changes) = PANIC
      \/ classify (probability_score data changes) = TRANSITION).
Proof.
  intros Hch. cbn in Hch. injection Hch as <-.
  unfold probability_score.
  cbn [vix_change vvix_change spx_change spread spread_trending_down].
  change (Qltb 3 (Qabs 0)) with false. change (Qltb 0 0) with false.
  cbn [andb].
  destruct (Qltb (vx1 data) (vx2 data)),
           (Qltb (vx1 data - vx2 data) (- (5 # 10))),
           (Qltb (vx2 data) (vx3 data)); cbn; (split; [lia | tauto]).
Qed.

Lemma first_tick_regime_witness :
  let data := {| vix := 20; vvix := 100; spx := 5000;
                 vx1 := 30; vx2 := 31; vx3 := 32 |} in
  let changes := {| vix_change := 0; vvix_change := 0; spx_change := 0;
                    spread := 30 - 31; spread_trending_down := false |} in
  probability_score data changes <= 45
  /\ (classify (probability_score data changes) = PANIC
      \/ classify (probability_score data changes) = TRANSITION).
Proof. intros data changes. apply first_tick_regime. reflexivity. Defined.

(** X21. LATE_PHASE_1 is out of reach unless [vx1 < vx2], and with
    [vx1 < vx2 < vx3] the regime is never PANIC. *)
Theorem regime_and_term_structure (data : MarketSnapshot) (changes : Changes) :
  (classify (probability_score data changes) = LATE_PHASE_1 ->
     (vx1 data < vx2 data)%Q)
  /\ ((vx1 data < vx2 data)%Q -> (vx2 data < vx3 data)%Q ->
        classify (probability_score data changes) <> PANIC).
Proof.
  split.
  - intros Hlate. apply Qltb_lt. revert Hlate. unfold probability_score.
    destruct (Qltb (vx1 data) (vx2 data)); [reflexivity |].
    destruct (Qltb 3 (Qabs (vix_change changes))),
             (Qltb (spread changes) (- (5 # 10))),
             (spread_trending_down changes),
             (Qltb (vvix_change changes) 0),
             (Qltb 0 (spx_change changes) && Qltb (vix_change changes) 0);
      cbn; discriminate.
  - intros H12 H23. apply Qltb_lt in H12, H23. unfold probability_score.
    rewrite H12, H23.
    destruct (Qltb 3 (Qabs (vix_change changes))),
             (Qltb (spread changes) (- (5 # 10))),
             (spread_trending_down changes),
             (Qltb (vvix_change changes) 0),
             (Qltb 0 (spx_change changes) && Qltb (vix_change changes) 0);
      cbn; discriminate.
Qed.

(** ** Signs of the percent changes *)

Lemma pct_sign (cur p : Q) :
  (0 < p)%Q ->
  ((0 < (cur - p) / p * 100)%Q <-> (p < cur)%Q)
  /\ (((cur - p) / p * 100 < 0)%Q <-> (cur < p)%Q).
Proof.
  intros Hp.
  assert (Hinv : (0 < / p)%Q) by (apply Qinv_lt_0_compat, Hp).
  unfold Qdiv. split; split; intros H.
  - destruct (Qlt_le_dec p cur) as [Hlt | Hle]; [exact Hlt | exfalso].
    assert ((cur - p) * / p * 100 <= 0)%Q; [| lra].
    assert ((cur - p) * / p <= 0 * / p)%Q
      by (apply Qmult_le_compat_r; lra).
    lra.
  - assert (0 * / p < (cur - p) * / p)%Q
      by (apply Qmult_lt_compat_r; lra).
    lra.
  - destruct (Qlt_le_dec cur p) as [Hlt | Hle]; [exact Hlt | exfalso].
    assert (0 * / p <= (cur - p) * / p)%Q
      by (apply Qmult_le_compat_r; lra).
    lra.
  - assert ((cur - p) * / p < 0 * / p)%Q
      by (apply Qmult_lt_compat_r; lra).
    lra.
Qed.

(** X22. With positive previous prices the change computation returns, and
    each percent change is positive exactly when its price rose and
    negative exactly when it fell. *)
Theorem compute_changes_signs (previous : Previous) (data : MarketSnapshot)
    (a b c : Q) :
  p_vix previous = Some a ->
  p_vvix previous = Some b ->
  p_spx previous = Some c ->
  (0 < a)%Q -> (0 < b)%Q -> (0 < c)%Q ->
  exists changes,
    compute_changes previous data = Ok changes
    /\ ((0 < vix_change changes)%Q <-> (a < vix data)%Q)
    /\ ((vix_change changes < 0)%Q <-> (vix data < a)%Q)
    /\ ((0 < vvix_change changes)%Q <-> (b < vvix data)%Q)
    /\ ((vvix_change changes < 0)%Q <-> (vvix data < b)%Q)
    /\ ((0 < spx_change changes)%Q <-> (c < spx data)%Q)
    /\ ((spx_change changes < 0)%Q <-> (spx data < c)%Q).
Proof.
  intros Hvix Hvvix Hspx Ha Hb Hc.
  assert (Hnz : forall p : Q, (0 < p)%Q -> ~ (p == 0)%Q) by (intros p Hp; lra).
  eexists. split.
  - unfold compute_changes.
    rewrite Hvix, Hvvix, Hspx, (truthy_nonzero a (Hnz a Ha)).
    rewrite (pct_change_ok _ a (Hnz a Ha)), (pct_change_ok _ b (Hnz b Hb)),
      (pct_change_ok _ c (Hnz c Hc)).
    reflexivity.
  - cbn [vix_change vvix_change spx_change].
    destruct (pct_sign (vix data) a Ha), (pct_sign (vvix data) b Hb),
      (pct_sign (spx data) c Hc).
    repeat split; tauto.
Qed.

Lemma compute_changes_signs_witness :
  let previous := {| p_vix := Some 19%Q; p_vvix := Some 100%Q;
                     p_spx := Some 5000%Q; p_spread := Some (-1)%Q;
                     p_regime := Some PANIC |} in
  let data := {| vix := 20; vvix := 95; spx := 5000;
                 vx1 := 30; vx2 := 31; vx3 := 32 |} in
  exists changes,
    compute_changes previous data = Ok changes
    /\ (0 < vix_change changes)%Q
    /\ (vvix_change changes < 0)%Q.
Proof.
  intros previous data.
  destruct (compute_changes_signs previous data 19 100 5000)
    as (changes & Hch & Hv & _ & _ & Hvv & _); try reflexivity.
  exists changes. split; [exact Hch |].
  split; [apply Hv | apply Hvv]; reflexivity.
Defined.

(** ** Heat-map symbols *)


(** ** Computations that return *)

Lemma returns_bind {A B} (m : M A) (f : A -> M B) (s s' : State) (a : A)
    (Q : State -> Prop) :
  m s = (Ok a, s') -> returns (f a) s' Q -> returns (m ≫= f) s Q.
Proof.
  intros Hm (b & s'' & Hf & HQ). exists b, s''.
  rewrite (bind_ok _ _ _ _ _ Hm). split; assumption.
Qed.

Lemma returns_ret {A} (a : A) (s : State) (Q : State -> Prop) :
  Q s -> returns (mret a) s Q.
Proof. intros HQ. exists a, s. split; [reflexivity | exact HQ]. Qed.

Lemma returns_modify (f : State -> State) (s : State) (Q : State -> Prop) :
  Q (f s) -> returns (modify f) s Q.
Proof. intros HQ. exists tt, (f s). split; [reflexivity | exact HQ]. Qed.

Lemma returns_append {B} (k : string) (x : hval) (f : unit -> M B)
    (s : State) (d : deque hval) (Q : State -> Prop) :
  history s !! k = Some d ->
  returns (f tt) (set_history (<[k := dq_append d x]> (history s)) s) Q ->
  returns (hist_append k x ≫= f) s Q.
Proof. intros Hk. apply returns_bind, hist_append_ok, Hk. Qed.

Lemma strength_entries_numeric (d : deque hval) :
  Forall strength_entry (dq_items d) -> numeric d.
Proof.
  unfold numeric. intros Hd. eapply Forall_impl; [exact Hd |].
  intros x (z & -> & _). eexists. reflexivity.
Qed.

Lemma returns_smoothed {B} (k : string) (z : Z) (f : Z -> M B)
    (s : State) (d : deque hval) (Q : State -> Prop) :
  history s !! k = Some d ->
  Forall strength_entry (dq_items d) ->
  (0 < dq_maxlen d)%nat ->
  (forall mean,
     returns (f mean)
       (set_history (<[k := dq_append d (HInt z)]> (history s)) s) Q) ->
  returns (smoothed_strength k z ≫= f) s Q.
Proof.
  intros Hk Hd Hmax Hf.
  destruct (smoothed_strength_ok k z s d Hk (strength_entries_numeric d Hd) Hmax)
    as [mean Hmean].
  apply (returns_bind _ _ _ _ _ _ Hmean), Hf.
Qed.

Lemma trend_visual_numeric (l : list hval) :
  Forall (fun x => exists q, x = HNum q) l ->
  exists chart, trend_visual l = Ok chart.
Proof.
  induction 1 as [| x l [q ->] _ [chart IH]].
  - eexists. reflexivity.
  - cbn [trend_visual bar_visual mbind result_bind]. rewrite IH.
    eexists. reflexivity.
Qed.

Lemma returns_chart {B} (k : string) (f : list bar -> M B) (s : State)
    (d : deque hval) (Q : State -> Prop) :
  history s !! k = Some d ->
  Forall strength_entry (dq_items d) ->
  (forall chart, returns (f chart) s Q) ->
  returns (chart_of k ≫= f) s Q.
Proof.
  intros Hk Hd Hf.
  destruct (trend_visual_numeric (dq_items d) (strength_entries_numeric d Hd))
    as [chart Hchart].
  apply (returns_bind _ _ s s chart); [| apply Hf].
  unfold chart_of. rewrite (bind_ok _ _ _ _ _ (hist_get_ok k s d Hk)).
  unfold lift. rewrite Hchart. reflexivity.
Qed.

Lemma dq_append_length {A} (d : deque A) (x : A) :
  bounded d ->
  length (dq_items (dq_append d x))
  = Nat.min (dq_maxlen d) (S (length (dq_items d))).
Proof.
  intros Hd. rewrite (dq_append_items d x Hd), length_lastn, length_app.
  cbn [length]. lia.
Qed.

(** ** A healthy state stays healthy *)

Lemma healthy_send (msg : message) (s : State) :
  (forall e, msg = MsgError e -> e = ZeroDivisionError) ->
  healthy s -> healthy (set_sent (sent s ++ [msg]) s).
Proof.
  intros Hmsg (Hok & Hent & Hweek & Hprev & Herr).
  split; [exact Hok |]. split; [exact Hent |]. split; [exact Hweek |].
  split; [exact Hprev |].
  intros e He. cbn [sent set_sent] in He.
  apply elem_of_app in He as [He | He]; [apply Herr, He |].
  apply list_elem_of_singleton in He. apply Hmsg. symmetry. exact He.
Qed.

Ltac key_in :=
  repeat first [apply list_elem_of_here | apply list_elem_of_further].

Ltac settle :=
  cbn [history set_history set_history_file set_sent set_previous
       set_last_weekly_alert previous last_weekly_alert history_file sent].

Ltac lookup_through :=
  cbn [history set_history set_history_file set_sent];
  rewrite ?lookup_insert_ne by discriminate;
  first [eassumption | apply lookup_insert_eq].

Ltac lookup_in H :=
  cbn [history set_history set_history_file set_sent] in H;
  rewrite ?lookup_insert_ne in H by discriminate;
  rewrite lookup_insert_eq in H;
  injection H as <-.

Lemma phase_alert_healthy (w : Tick) (changes : Changes) (score : Z)
    (regime : Regime) (s : State) :
  healthy s -> returns (phase_alert w changes score regime) s healthy.
Proof.
  destruct s as [p0 h0 clock0 file0 sent0].
  intros (Hok & Hent & (n & Hweek) & Hprev & Herr).
  cbn [history previous sent] in Hok, Hent, Hweek, Hprev, Herr.
  destruct (buffers_ok_lookup _ "vix_strength" 3 Hok eq_refl) as (d1 & K1 & M1 & B1).
  destruct (buffers_ok_lookup _ "vvix_strength" 3 Hok eq_refl) as (d2 & K2 & M2 & B2).
  destruct (buffers_ok_lookup _ "spread_strength" 3 Hok eq_refl) as (d3 & K3 & M3 & B3).
  destruct (buffers_ok_lookup _ "spx_strength" 3 Hok eq_refl) as (d4 & K4 & M4 & B4).
  destruct (buffers_ok_lookup _ "vix_trend" 5 Hok eq_refl) as (d5 & K5 & M5 & B5).
  destruct (buffers_ok_lookup _ "vvix_trend" 5 Hok eq_refl) as (d6 & K6 & M6 & B6).
  destruct (buffers_ok_lookup _ "spread_trend" 5 Hok eq_refl) as (d7 & K7 & M7 & B7).
  destruct (buffers_ok_lookup _ "spx_trend" 5 Hok eq_refl) as (d8 & K8 & M8 & B8).
  destruct (buffers_ok_lookup _ "vix_week" 7 Hok eq_refl) as (d9 & K9 & M9 & B9).
  destruct (buffers_ok_lookup _ "vvix_week" 7 Hok eq_refl) as (d10 & K10 & M10 & B10).
  destruct (buffers_ok_lookup _ "spread_week" 7 Hok eq_refl) as (d11 & K11 & M11 & B11).
  destruct (buffers_ok_lookup _ "spx_week" 7 Hok eq_refl) as (d12 & K12 & M12 & B12).
  destruct (buffers_ok_lookup _ "regime_week" 7 Hok eq_refl) as (d13 & K13 & M13 & B13).
  destruct (buffers_ok_lookup _ "date_week" 7 Hok eq_refl) as (d14 & K14 & M14 & B14).
  assert (Hin : forall k, k ∈ strength_keys -> forall d,
            h0 !! k = Some d -> Forall strength_entry (dq_items d))
    by (intros k Hk d; apply Hent, Hk).
  assert (E1 := Hin "vix_strength" ltac:(key_in) d1 K1).
  assert (E2 := Hin "vvix_strength" ltac:(key_in) d2 K2).
  assert (E3 := Hin "spread_strength" ltac:(key_in) d3 K3).
  assert (E4 := Hin "spx_strength" ltac:(key_in) d4 K4).
  assert (E5 := Hin "vix_trend" ltac:(key_in) d5 K5).
  assert (E6 := Hin "vvix_trend" ltac:(key_in) d6 K6).
  assert (E7 := Hin "spread_trend" ltac:(key_in) d7 K7).
  assert (E8 := Hin "spx_trend" ltac:(key_in) d8 K8).
  assert (E9 := Hin "vix_week" ltac:(key_in) d9 K9).
  assert (E10 := Hin "vvix_week" ltac:(key_in) d10 K10).
  assert (E11 := Hin "spread_week" ltac:(key_in) d11 K11).
  assert (E12 := Hin "spx_week" ltac:(key_in) d12 K12).
  assert (L9 := Hweek "vix_week" d9 ltac:(key_in) K9).
  assert (L10 := Hweek "vvix_week" d10 ltac:(key_in) K10).
  assert (L11 := Hweek "spread_week" d11 ltac:(key_in) K11).
  assert (L12 := Hweek "spx_week" d12 ltac:(key_in) K12).
  assert (L13 := Hweek "regime_week" d13 ltac:(key_in) K13).
  assert (L14 := Hweek "date_week" d14 ltac:(key_in) K14).
  clear Hin Hent Hweek.
  unfold phase_alert, compute_strengths. cbv beta iota zeta.
  pose proof (signal_strength_range (- vix_change changes) true) as R1.
  pose proof (signal_strength_range (- vvix_change changes) true) as R2.
  pose proof (signal_strength_range (- spread changes) true) as R3.
  pose proof (signal_strength_range (spx_change changes) true) as R4.
  set (x1 := signal_strength (- vix_change changes) true) in *.
  set (x2 := signal_strength (- vvix_change changes) true) in *.
  set (x3 := signal_strength (- spread changes) true) in *.
  set (x4 := signal_strength (spx_change changes) true) in *.
  eapply returns_smoothed; [lookup_through | assumption | lia | intros m1].
  settle.
  eapply returns_smoothed; [lookup_through | assumption | lia | intros m2].
  settle.
  eapply returns_smoothed; [lookup_through | assumption | lia | intros m3].
  settle.
  eapply returns_smoothed; [lookup_through | assumption | lia | intros m4].
  settle.
  do 10 (eapply returns_append; [lookup_through |]; settle).
  eapply returns_bind; [reflexivity |]. settle.
  do 4 (eapply returns_chart;
        [lookup_through | apply dq_append_entries; assumption | intros ?]).
  apply returns_modify. settle.
  split; [| split; [| split; [| split]]].
  - cbn [history set_history set_history_file set_sent].
    repeat (eapply buffers_ok_insert;
            [ rewrite ?lookup_insert_ne by discriminate; eassumption
            | reflexivity
            | apply dq_append_bounded; unfold bounded; lia
            | ]).
    exact Hok.
  - intros k d Hk Hd. unfold strength_keys in Hk.
    repeat (apply elem_of_cons in Hk as [-> | Hk]);
      [lookup_in Hd; apply dq_append_entries; assumption .. |].
    apply elem_of_nil in Hk. contradiction.
  - exists (Nat.min 7 (S n)). intros k d Hk Hd. unfold week_keys in Hk.
    repeat (apply elem_of_cons in Hk as [-> | Hk]);
      [lookup_in Hd; rewrite dq_append_length by (unfold bounded; lia); lia .. |].
    apply elem_of_nil in Hk. contradiction.
  - exact Hprev.
  - intros e He. cbn [sent set_sent set_history_file set_history] in He.
    apply elem_of_app in He as [He | He]; [apply Herr, He |].
    apply list_elem_of_singleton in He. discriminate He.
Qed.

Lemma hist_index_ok (k : string) (i : nat) (s : State) (d : deque hval)
    (x : hval) :
  history s !! k = Some d -> dq_items d !! i = Some x ->
  hist_index k i s = (Ok x, s).
Proof.
  intros Hk Hi. unfold hist_index.
  rewrite (bind_ok _ _ _ _ _ (hist_get_ok k s d Hk)). rewrite Hi. reflexivity.
Qed.

Lemma returns_average {B} (k : string) (f : Q -> M B) (s : State)
    (d : deque hval) (Q : State -> Prop) :
  history s !! k = Some d ->
  Forall strength_entry (dq_items d) ->
  (0 < length (dq_items d))%nat ->
  (forall mean, returns (f mean) s Q) ->
  returns (average k ≫= f) s Q.
Proof.
  intros Hk Hd Hlen Hf.
  destruct (average_ok k s d Hk (strength_entries_numeric d Hd) Hlen)
    as [mean Hmean].
  apply (returns_bind _ _ _ _ _ _ Hmean), Hf.
Qed.

Lemma trend_arrow_ok (d : deque hval) :
  Forall strength_entry (dq_items d) ->
  (0 < length (dq_items d))%nat ->
  exists a, trend_arrow d = Ok a.
Proof.
  intros Hd Hlen. unfold trend_arrow, dq_last, dq_first.
  destruct (dq_items d) as [| x l] eqn:Hitems; [cbn in Hlen; lia |].
  assert (Hlast : exists z, last (x :: l) = Some (HInt z)).
  { destruct (last (x :: l)) as [y |] eqn:Hy.
    - apply last_Some_elem_of in Hy.
      rewrite Forall_forall in Hd. destruct (Hd y Hy) as (z & -> & _).
      exists z. reflexivity.
    - apply last_None in Hy. discriminate Hy. }
  destruct Hlast as [zl ->].
  apply Forall_cons in Hd as [(zf & -> & _) _].
  cbn. destruct (Qltb (inject_Z zf) (inject_Z zl)); [eexists; reflexivity |].
  destruct (Qltb (inject_Z zl) (inject_Z zf)); eexists; reflexivity.
Qed.

Lemma returns_week_arrow {B} (k : string) (f : arrow -> M B) (s : State)
    (d : deque hval) (Q : State -> Prop) :
  history s !! k = Some d ->
  Forall strength_entry (dq_items d) ->
  (0 < length (dq_items d))%nat ->
  (forall a, returns (f a) s Q) ->
  returns (week_arrow k ≫= f) s Q.
Proof.
  intros Hk Hd Hlen Hf. destruct (trend_arrow_ok d Hd Hlen) as [a Ha].
  apply (returns_bind _ _ s s a); [| apply Hf].
  unfold week_arrow. rewrite (bind_ok _ _ _ _ _ (hist_get_ok k s d Hk)).
  unfold lift. rewrite Ha. reflexivity.
Qed.

Section WeeklyRecords.

(** Six weekly buffers of the same length, four of them of strengths. *)
Variable s : State.
Variable n : nat.
Variables d_vix d_vvix d_spread d_spx d_regime d_date : deque hval.

Hypothesis K_vix : history s !! "vix_week" = Some d_vix.
Hypothesis K_vvix : history s !! "vvix_week" = Some d_vvix.
Hypothesis K_spread : history s !! "spread_week" = Some d_spread.
Hypothesis K_spx : history s !! "spx_week" = Some d_spx.
Hypothesis K_regime : history s !! "regime_week" = Some d_regime.
Hypothesis K_date : history s !! "date_week" = Some d_date.

Hypothesis E_vix : Forall strength_entry (dq_items d_vix).
Hypothesis E_vvix : Forall strength_entry (dq_items d_vvix).
Hypothesis E_spread : Forall strength_entry (dq_items d_spread).
Hypothesis E_spx : Forall strength_entry (dq_items d_spx).

Hypothesis L_vix : length (dq_items d_vix) = n.
Hypothesis L_vvix : length (dq_items d_vvix) = n.
Hypothesis L_spread : length (dq_items d_spread) = n.
Hypothesis L_spx : length (dq_items d_spx) = n.
Hypothesis L_regime : length (dq_items d_regime) = n.
Hypothesis L_date : length (dq_items d_date) = n.

Lemma strength_bar (d : deque hval) (i : nat) :
  Forall strength_entry (dq_items d) ->
  (i < length (dq_items d))%nat ->
  exists x b, dq_items d !! i = Some x /\ bar_visual x = Ok b.
Proof.
  intros Hd Hi. destruct (lookup_lt_is_Some_2 _ _ Hi) as [x Hx].
  rewrite Forall_forall in Hd.
  destruct (Hd x (list_elem_of_lookup_2 _ _ _ Hx)) as (z & -> & _).
  eexists _, _. split; [exact Hx | reflexivity].
Qed.

Lemma dashboard_row_ok (i : nat) :
  (i < n)%nat -> exists row, dashboard_row i s = (Ok row, s).
Proof.
  intros Hi.
  destruct (lookup_lt_is_Some_2 (dq_items d_date) i) as [date Hdate]; [lia |].
  destruct (lookup_lt_is_Some_2 (dq_items d_regime) i) as [r Hr]; [lia |].
  destruct (strength_bar d_vix i E_vix) as (x1 & b1 & X1 & B1); [lia |].
  destruct (strength_bar d_vvix i E_vvix) as (x2 & b2 & X2 & B2); [lia |].
  destruct (strength_bar d_spread i E_spread) as (x3 & b3 & X3 & B3); [lia |].
  destruct (strength_bar d_spx i E_spx) as (x4 & b4 & X4 & B4); [lia |].
  eexists. unfold dashboard_row, lift.
  rewrite (bind_ok _ _ _ _ _ (hist_index_ok _ i s _ _ K_date Hdate)).
  rewrite (bind_ok _ _ _ _ _ (hist_index_ok _ i s _ _ K_vix X1)).
  rewrite B1. rewrite (bind_ok _ _ s s b1 eq_refl).
  rewrite (bind_ok _ _ _ _ _ (hist_index_ok _ i s _ _ K_vvix X2)).
  rewrite B2. rewrite (bind_ok _ _ s s b2 eq_refl).
  rewrite (bind_ok _ _ _ _ _ (hist_index_ok _ i s _ _ K_spread X3)).
  rewrite B3. rewrite (bind_ok _ _ s s b3 eq_refl).
  rewrite (bind_ok _ _ _ _ _ (hist_index_ok _ i s _ _ K_spx X4)).
  rewrite B4. rewrite (bind_ok _ _ s s b4 eq_refl).
  rewrite (bind_ok _ _ _ _ _ (hist_index_ok _ i s _ _ K_regime Hr)).
  reflexivity.
Qed.

Lemma dashboard_rows_ok (l : list nat) :
  Forall (fun i => (i < n)%nat) l ->
  exists rows, collect l dashboard_row s = (Ok rows, s).
Proof.
  induction 1 as [| i l Hi _ [rows IH]]; cbn [collect].
  - eexists. reflexivity.
  - destruct (dashboard_row_ok i Hi) as [row Hrow].
    rewrite (bind_ok _ _ _ _ _ Hrow), (bind_ok _ _ _ _ _ IH).
    eexists. reflexivity.
Qed.

Lemma send_weekly_dashboard_returns (Q : State -> Prop) :
  Q s ->
  (forall d, Q (set_sent (sent s ++ [MsgDashboard d]) s)) ->
  returns send_weekly_dashboard s Q.
Proof.
  intros Hs Hsent. unfold send_weekly_dashboard.
  eapply returns_bind; [apply hist_get_ok, K_vix |].
  destruct (Nat.ltb_spec (length (dq_items d_vix)) 2) as [Hfew | Hmany];
    [apply returns_ret, Hs |].
  eapply returns_average; [exact K_vix | exact E_vix | lia | intros a1].
  eapply returns_average; [exact K_vvix | exact E_vvix | lia | intros a2].
  eapply returns_average; [exact K_spread | exact E_spread | lia | intros a3].
  eapply returns_average; [exact K_spx | exact E_spx | lia | intros a4].
  eapply returns_bind; [apply hist_get_ok, K_vix |].
  destruct (dashboard_rows_ok (seq 0 (length (dq_items d_vix)))) as [rows Hrows].
  { apply Forall_forall. intros i Hi. apply elem_of_seq in Hi. lia. }
  eapply returns_bind; [exact Hrows |].
  eapply returns_week_arrow; [exact K_vix | exact E_vix | lia | intros r1].
  eapply returns_week_arrow; [exact K_vvix | exact E_vvix | lia | intros r2].
  eapply returns_week_arrow; [exact K_spread | exact E_spread | lia | intros r3].
  eapply returns_week_arrow; [exact K_spx | exact E_spx | lia | intros r4].
  eapply returns_bind; [reflexivity |].
  eexists tt, _. split; [reflexivity | apply Hsent].
Qed.

End WeeklyRecords.

Lemma returns_then {A B} (m : M A) (f : A -> M B) (s : State)
    (R Q : State -> Prop) :
  returns m s R ->
  (forall a s', R s' -> returns (f a) s' Q) ->
  returns (m ≫= f) s Q.
Proof.
  intros (a & s' & Hm & HR) Hf.
  apply (returns_bind _ _ _ _ _ _ Hm), Hf, HR.
Qed.

Lemma healthy_dashboard (s : State) :
  healthy s -> returns send_weekly_dashboard s healthy.
Proof.
  intros Hs. pose proof Hs as (Hok & Hent & (n & Hweek) & _ & _).
  destruct (buffers_ok_lookup _ "vix_week" 7 Hok eq_refl) as (d9 & K9 & _).
  destruct (buffers_ok_lookup _ "vvix_week" 7 Hok eq_refl) as (d10 & K10 & _).
  destruct (buffers_ok_lookup _ "spread_week" 7 Hok eq_refl) as (d11 & K11 & _).
  destruct (buffers_ok_lookup _ "spx_week" 7 Hok eq_refl) as (d12 & K12 & _).
  destruct (buffers_ok_lookup _ "regime_week" 7 Hok eq_refl) as (d13 & K13 & _).
  destruct (buffers_ok_lookup _ "date_week" 7 Hok eq_refl) as (d14 & K14 & _).
  apply (send_weekly_dashboard_returns s n d9 d10 d11 d12 d13 d14);
    try assumption;
    try (eapply Hent; [| eassumption]; key_in);
    try (eapply Hweek; [| eassumption]; key_in).
  intros d. apply healthy_send; [| exact Hs]. intros e He. discriminate He.
Qed.

Lemma healthy_clock (t : Z) (s : State) :
  healthy s -> healthy (set_last_weekly_alert t s).
Proof. intros Hs. exact Hs. Qed.

Lemma healthy_previous (w : Tick) (changes : Changes) (s : State) :
  healthy s -> healthy (set_previous (new_previous w changes) s).
Proof.
  intros (Hok & Hent & Hweek & _ & Herr).
  split; [exact Hok |]. split; [exact Hent |]. split; [exact Hweek |].
  split; [| exact Herr]. intros _. split; discriminate.
Qed.

Lemma scored_tick_healthy (w : Tick) (changes : Changes) (s : State) :
  healthy s -> returns (scored_tick w changes) s healthy.
Proof.
  intros Hs. unfold scored_tick.
  eapply (returns_then _ _ _ healthy).
  { destruct (should_early_warning_alert changes).
    - eexists tt, _. split; [reflexivity |].
      apply healthy_send; [| exact Hs]. intros e He. discriminate He.
    - apply returns_ret, Hs. }
  intros _ s1 Hs1. eapply returns_bind; [reflexivity |].
  eapply (returns_then _ _ _ healthy).
  { destruct (should_alert _ _);
      [apply phase_alert_healthy, Hs1 | apply returns_ret, Hs1]. }
  intros _ s2 Hs2. eapply returns_bind; [reflexivity |].
  eapply (returns_then _ _ _ healthy).
  { destruct (24 * 3600 <? t_now w - last_weekly_alert s2);
      [| apply returns_ret, Hs2].
    eapply (returns_then _ _ _ healthy); [apply healthy_dashboard, Hs2 |].
    intros _ s3 Hs3. apply returns_modify, healthy_clock, Hs3. }
  intros _ s3 Hs3. apply returns_modify.
  apply (healthy_previous w changes), Hs3.
Qed.

Lemma compute_changes_error (previous : Previous) (data : MarketSnapshot)
    (e : exn) :
  (p_vix previous <> None ->
     p_vvix previous <> None /\ p_spx previous <> None) ->
  compute_changes previous data = Raise e -> e = ZeroDivisionError.
Proof.
  intros Hcomplete. unfold compute_changes.
  destruct (p_vix previous) as [a |]; [| discriminate].
  destruct Hcomplete as [Hb Hc]; [discriminate |].
  destruct (p_vvix previous) as [b |]; [| contradiction].
  destruct (p_spx previous) as [c |]; [| contradiction].
  unfold truthy, pct_change, div, num. cbn [mbind result_bind].
  destruct (Qeq_bool a 0); cbn; [discriminate |].
  destruct (Qeq_bool b 0); cbn; [congruence |].
  destruct (Qeq_bool c 0); cbn; [congruence | discriminate].
Qed.

Lemma tick_healthy (w : Tick) : preserves healthy (tick w).
Proof.
  intros s Hs.
  destruct (compute_changes (previous s) (t_data w)) as [changes | e] eqn:Hch.
  - unfold tick, try_except.
    rewrite (tick_body_changes w s changes Hch).
    destruct (fake_spike (t_data w) changes).
    + cbn. apply healthy_send; [| exact Hs]. intros e He. discriminate He.
    + destruct (scored_tick_healthy w changes s Hs) as (a & s' & Hrun & Hs').
      rewrite Hrun. exact Hs'.
  - rewrite (tick_reports_error w s e Hch). cbn [snd].
    apply healthy_send; [| exact Hs]. intros e' [= <-].
    destruct Hs as (_ & _ & _ & Hprev & _).
    exact (compute_changes_error _ _ e Hprev Hch).
Qed.

Lemma state_init_healthy : healthy (state_init None).
Proof.
  split; [apply history_init_ok |]. split; [| split; [| split]].
  - intros k d _ Hd. cbn [history state_init] in Hd.
    unfold history_init in Hd. rewrite lookup_fmap in Hd.
    destruct (declared_capacity !! k); [| discriminate].
    injection Hd as <-. constructor.
  - exists 0%nat. intros k d _ Hd. cbn [history state_init] in Hd.
    unfold history_init in Hd. rewrite lookup_fmap in Hd.
    destruct (declared_capacity !! k); [| discriminate].
    injection Hd as <-. reflexivity.
  - intros H. contradiction H. reflexivity.
  - intros e He. cbn in He. apply elem_of_nil in He. contradiction.
Qed.

Lemma run_fresh_healthy (now0 : Z) (ticks : list Tick) :
  healthy (run now0 ticks (state_init None)).2.
Proof.
  unfold run.
  rewrite (bind_ok load_history _ (state_init None) (state_init None) tt
             eq_refl).
  rewrite (bind_ok (send_telegram MsgStarted) _ (state_init None) _ tt eq_refl).
  rewrite (bind_ok (modify _) _ _ _ tt eq_refl).
  apply preserves_for_each; [apply tick_healthy |].
  apply healthy_clock, healthy_send; [| apply state_init_healthy].
  intros e He. discriminate He.
Qed.

(** ** Runs without a history file *)



(** X24. Without a history file, in every state a run reaches the six
    weekly buffers have the same length, and the smoothing, trend and
    weekly strength buffers hold integers between 0 and 100. *)
Theorem fresh_run_records (now0 : Z) (ticks : list Tick) :
  let s := (run now0 ticks (state_init None)).2 in
  (exists n, forall k, k ∈ week_keys ->
     exists d, history s !! k = Some d /\ length (dq_items d) = n)
  /\ (forall k, k ∈ strength_keys ->
        exists d, history s !! k = Some d
                  /\ Forall strength_entry (dq_items d)).
Proof.
  cbv zeta.
  destruct (run_fresh_healthy now0 ticks) as (Hok & Hent & (n & Hweek) & _ & _).
  assert (Hkey : forall k c, declared_capacity !! k = Some c ->
            is_Some (history (run now0 ticks (state_init None)).2 !! k)).
  { intros k c Hc. destruct (buffers_ok_lookup _ k c Hok Hc) as (d & Hd & _).
    eexists. exact Hd. }
  split.
  - exists n. intros k Hk.
    assert (Hsome : is_Some (history (run now0 ticks (state_init None)).2 !! k)).
    { unfold week_keys in Hk.
      repeat (apply elem_of_cons in Hk as [-> | Hk]);
        [apply (Hkey _ 7%nat); reflexivity .. |].
      apply elem_of_nil in Hk. contradiction. }
    clear Hkey. destruct Hsome as [d Hd]. exists d. split; [exact Hd |].
    apply (Hweek k d Hk Hd).
  - intros k Hk.
    assert (Hsome : is_Some (history (run now0 ticks (state_init None)).2 !! k)).
    { unfold strength_keys in Hk.
      repeat (apply elem_of_cons in Hk as [-> | Hk]);
        [eapply Hkey; reflexivity .. |].
      apply elem_of_nil in Hk. contradiction. }
    clear Hkey. destruct Hsome as [d Hd]. exists d. split; [exact Hd |].
    apply (Hent k d Hk Hd).
Qed.


